(** * sot-dynamic: [dynamic_graph.sot.dynamics.humanoid_robot]

    A shallow embedding of [humanoid_robot.py] and the verification of
    its specification.  Python objects live in a store indexed by object
    identities; methods are computations in a state-and-exception monad
    over that store, so that aliasing (two names for one object) and
    partial effects before a raise are both visible. *)

From Stdlib Require Import ZArith Lia Ascii String PrimFloat.
From stdpp Require Import base option list strings gmap.

Local Open Scope string_scope.

(** ** Python strings: the [str] methods used by the module *)

Definition is_upper (c : ascii) : bool :=
  (65 <=? nat_of_ascii c)%nat && (nat_of_ascii c <=? 90)%nat.

Definition is_lower (c : ascii) : bool :=
  (97 <=? nat_of_ascii c)%nat && (nat_of_ascii c <=? 122)%nat.

Definition upper (c : ascii) : ascii :=
  if is_lower c then ascii_of_nat (nat_of_ascii c - 32) else c.

Definition lower (c : ascii) : ascii :=
  if is_upper c then ascii_of_nat (nat_of_ascii c + 32) else c.

Fixpoint str_map (f : ascii -> ascii) (s : string) : string :=
  match s with
  | EmptyString => EmptyString
  | String c s' => String (f c) (str_map f s')
  end.

(** [s.capitalize()]: first character upper-cased, the others lower-cased. *)
Definition capitalize (s : string) : string :=
  match s with
  | EmptyString => EmptyString
  | String c s' => String (upper c) (str_map lower s')
  end.

(** [s.split(sep)] for a one-character separator: never empty, and
    adjacent separators delimit empty words. *)
Fixpoint split (sep : ascii) (s : string) : list string :=
  match s with
  | EmptyString => [EmptyString]
  | String c s' =>
      if Ascii.eqb c sep then EmptyString :: split sep s'
      else match split sep s' with
           | w :: ws => String c w :: ws
           | [] => [String c EmptyString]
           end
  end.

(** The attribute name computed at the end of the loop of
    [initializeRobot]:
    [w = op.split('-'); memberName = w[0];
     for i in w[1:]: memberName += i.capitalize()]. *)
Definition memberName (op : string) : string :=
  match split "-" op with
  | [] => EmptyString
  | w0 :: ws => fold_left (fun acc i => acc +:+ capitalize i) ws w0
  end.

(** ** Values carried by signals *)

Inductive Value :=
  | Vector (v : list float)
  | Matrix (m : list (list float)).

(** [n * (0.,)]: a tuple of [n] zeros, empty when [n] is negative. *)
Definition zeros (n : Z) : list float := repeat 0%float (Z.to_nat n).

Definition loc := nat.

(** An input signal is unset, holds a constant assigned through
    [.value = v], or is plugged to the signal [signame] of the entity
    [src] ([plug(src.signame, this)]). *)
Inductive Signal :=
  | Unset
  | Constant (v : Value)
  | Plugged (src : loc) (signame : string).

(** ** Entities *)

(** The model handle ([Dynamic] entity).  [dyn_signals] maps the name of
    each output signal ([com], [Jcom], the operational points and their
    Jacobians) to the value last computed for it, [None] before the first
    computation.  [dyn_eval] is the function the parsed model evaluates
    when an output signal is recomputed: signal name, time, and the three
    input signals. *)
Record Dynamic := {
  dyn_name : string;
  dyn_dimension : Z;
  dyn_properties : gmap string string;
  dyn_position : Signal;
  dyn_velocity : Signal;
  dyn_acceleration : Signal;
  dyn_opPoints : list (string * string);
  dyn_signals : gmap string (option Value);
  dyn_eval : string -> Z -> Signal -> Signal -> Signal -> Value
}.

Record RobotSimu := {
  dev_name : string;
  dev_state : option (list float)
}.

Record FeatureGeneric := {
  fg_name : string;
  fg_errorIN : Signal;
  fg_jacobianIN : Signal;
  fg_selec : option string;
  fg_sdes : option loc
}.

Record FeaturePosition := {
  fp_name : string;
  fp_position : Signal;
  fp_jacobian : Signal;
  fp_reference : Signal
}.

Record Task := {
  task_name : string;
  task_features : list string;
  task_controlGain : option float
}.

(** An instance of [AbstractHumanoidRobot].  A field holds the binding
    found in the instance; [None] stands for a missing binding, in which
    case attribute lookup falls back to the class attribute ([None] for
    all of them except [features] and [tasks]).  [members] holds the
    attributes created by [setattr]. *)
Record Robot := {
  name : option string;
  halfSitting : option (list float);
  dynamic : option loc;
  device : option loc;
  dimension : option Z;
  featureCom : option loc;
  featureComDes : option loc;
  comTask : option loc;
  features : option loc;
  tasks : option loc;
  filename : option string;
  members : gmap string loc
}.

Inductive obj :=
  | ODict (d : gmap string loc)
  | ODynamic (d : Dynamic)
  | ORobotSimu (s : RobotSimu)
  | OFeatureGeneric (f : FeatureGeneric)
  | OFeaturePosition (f : FeaturePosition)
  | OTask (t : Task)
  | ORobot (r : Robot).

(** ** The object store *)

Record Heap := {
  next : loc;
  objs : gmap loc obj
}.

Inductive exn :=
  | Exception (cls : string) (msg : string).

Definition NameError (n : string) : exn :=
  Exception "NameError" ("global name '" +:+ n +:+ "' is not defined").
Definition TypeError (msg : string) : exn := Exception "TypeError" msg.
Definition AttributeError (attr : string) : exn :=
  Exception "AttributeError" ("object has no attribute '" +:+ attr +:+ "'").
Definition KeyError (key : string) : exn := Exception "KeyError" key.

(** A computation transforms the store and either raises or returns.  The
    store reached at the raise is kept: nothing is rolled back. *)
Definition M (A : Type) : Type := Heap -> Heap * (exn + A).

Definition ret {A} (a : A) : M A := fun h => (h, inr a).
Definition raise {A} (e : exn) : M A := fun h => (h, inl e).
Definition bind {A B} (m : M A) (f : A -> M B) : M B :=
  fun h => match m h with
           | (h', inr a) => f a h'
           | (h', inl e) => (h', inl e)
           end.

#[export] Instance M_ret : MRet M := @ret.
#[export] Instance M_bind : MBind M := fun A B f m => bind m f.


Fixpoint for_each {A} (l : list A) (body : A -> M unit) : M unit :=
  match l with
  | [] => ret tt
  | x :: l' => body x;; for_each l' body
  end.

(** [if not b: body]. *)
Definition if_not (b : bool) (body : M unit) : M unit :=
  if b then ret tt else body.

Definition alloc (o : obj) : M loc :=
  fun h => ({| next := S (next h); objs := <[next h := o]> (objs h) |},
            inr (next h)).

Definition load (l : loc) : M obj :=
  fun h => match objs h !! l with
           | Some o => (h, inr o)
           | None => (h, inl (Exception "SystemError" "dangling reference"))
           end.

Definition store (l : loc) (o : obj) : M unit :=
  fun h => ({| next := next h; objs := <[l := o]> (objs h) |}, inr tt).

(** Duck typing: using an object through the interface of a class it
    does not belong to raises [AttributeError]. *)
Definition as_dynamic (l : loc) (attr : string) : M Dynamic :=
  o ← load l;
  match o with ODynamic d => ret d | _ => raise (AttributeError attr) end.

Definition as_device (l : loc) (attr : string) : M RobotSimu :=
  o ← load l;
  match o with ORobotSimu s => ret s | _ => raise (AttributeError attr) end.

Definition as_generic (l : loc) (attr : string) : M FeatureGeneric :=
  o ← load l;
  match o with OFeatureGeneric f => ret f | _ => raise (AttributeError attr) end.

Definition as_task (l : loc) (attr : string) : M Task :=
  o ← load l;
  match o with OTask t => ret t | _ => raise (AttributeError attr) end.

Definition as_dict (l : loc) (attr : string) : M (gmap string loc) :=
  o ← load l;
  match o with ODict d => ret d | _ => raise (AttributeError attr) end.

Definition get_robot (self : loc) : M Robot :=
  o ← load self;
  match o with ORobot r => ret r | _ => raise (AttributeError "self") end.

(** Attribute access through a reference that may be [None]. *)
Definition deref (v : option loc) (attr : string) : M loc :=
  match v with
  | Some l => ret l
  | None => raise (AttributeError attr)
  end.

(** Truth value of an attribute, as tested by [if not x]: [None] and the
    empty dictionary are false, every other object is true. *)
Definition truth (v : option loc) : M bool :=
  match v with
  | None => ret false
  | Some l =>
      o ← load l;
      match o with
      | ODict d => ret (negb (bool_decide (d = ∅)))
      | _ => ret true
      end
  end.

(** [a + b] where [a] may be [None]. *)
Definition str_add (a : option string) (b : string) : M string :=
  match a with
  | Some s => ret (s +:+ b)
  | None =>
      raise (TypeError "unsupported operand type(s) for +: 'NoneType' and 'str'")
  end.

(** [n * (0.,)] where [n] may be [None]. *)
Definition tuple_mul (n : option Z) : M (list float) :=
  match n with
  | Some k => ret (zeros k)
  | None =>
      raise (TypeError "unsupported operand type(s) for *: 'NoneType' and 'tuple'")
  end.

(** ** Names visible in the module

    The names bound by the [import] statements and the definitions of
    [humanoid_robot.py], and the interpreter's built-in names it may fall
    back to.  Looking up any other name raises [NameError]. *)
Definition module_globals : list string :=
  ["SE3"; "R3"; "SO3"; "FeaturePosition"; "RobotSimu";
   "FeaturePoint6dRelative"; "FeatureGeneric"; "FeatureJointLimits"; "Task";
   "Constraint"; "GainAdaptive"; "SOT"; "Parser"; "AngleEstimator"; "plug";
   "I3"; "I4"; "AbstractHumanoidRobot"; "HumanoidRobot"].

Definition builtins : list string :=
  ["object"; "dict"; "reduce"; "range"; "setattr"; "None";
   "BaseException"; "Exception"; "StandardError"; "ArithmeticError";
   "AssertionError"; "AttributeError"; "EnvironmentError"; "EOFError";
   "IOError"; "ImportError"; "IndexError"; "KeyError"; "LookupError";
   "MemoryError"; "NameError"; "NotImplementedError"; "OSError";
   "OverflowError"; "ReferenceError"; "RuntimeError"; "StopIteration";
   "SyntaxError"; "SystemError"; "TypeError"; "UnboundLocalError";
   "ValueError"; "ZeroDivisionError"].

Definition resolve (n : string) : M unit :=
  if bool_decide (n ∈ (module_globals ++ builtins)%list) then ret tt
  else raise (NameError n).

(** ** Field updates *)

Definition set_properties (d : Dynamic) (p : gmap string string) : Dynamic :=
  {| dyn_name := dyn_name d; dyn_dimension := dyn_dimension d;
     dyn_properties := p;
     dyn_position := dyn_position d; dyn_velocity := dyn_velocity d;
     dyn_acceleration := dyn_acceleration d;
     dyn_opPoints := dyn_opPoints d; dyn_signals := dyn_signals d;
     dyn_eval := dyn_eval d |}.

Definition set_position (d : Dynamic) (s : Signal) : Dynamic :=
  {| dyn_name := dyn_name d; dyn_dimension := dyn_dimension d;
     dyn_properties := dyn_properties d;
     dyn_position := s; dyn_velocity := dyn_velocity d;
     dyn_acceleration := dyn_acceleration d;
     dyn_opPoints := dyn_opPoints d; dyn_signals := dyn_signals d;
     dyn_eval := dyn_eval d |}.

Definition set_velocity (d : Dynamic) (s : Signal) : Dynamic :=
  {| dyn_name := dyn_name d; dyn_dimension := dyn_dimension d;
     dyn_properties := dyn_properties d;
     dyn_position := dyn_position d; dyn_velocity := s;
     dyn_acceleration := dyn_acceleration d;
     dyn_opPoints := dyn_opPoints d; dyn_signals := dyn_signals d;
     dyn_eval := dyn_eval d |}.

Definition set_acceleration (d : Dynamic) (s : Signal) : Dynamic :=
  {| dyn_name := dyn_name d; dyn_dimension := dyn_dimension d;
     dyn_properties := dyn_properties d;
     dyn_position := dyn_position d; dyn_velocity := dyn_velocity d;
     dyn_acceleration := s;
     dyn_opPoints := dyn_opPoints d; dyn_signals := dyn_signals d;
     dyn_eval := dyn_eval d |}.

Definition set_signals (d : Dynamic) (ops : list (string * string))
    (s : gmap string (option Value)) : Dynamic :=
  {| dyn_name := dyn_name d; dyn_dimension := dyn_dimension d;
     dyn_properties := dyn_properties d;
     dyn_position := dyn_position d; dyn_velocity := dyn_velocity d;
     dyn_acceleration := dyn_acceleration d;
     dyn_opPoints := ops; dyn_signals := s;
     dyn_eval := dyn_eval d |}.

Definition with_name (v : option string) (r : Robot) : Robot :=
  {| name := v; halfSitting := halfSitting r; dynamic := dynamic r;
     device := device r; dimension := dimension r;
     featureCom := featureCom r; featureComDes := featureComDes r;
     comTask := comTask r; features := features r; tasks := tasks r;
     filename := filename r; members := members r |}.

Definition with_halfSitting (v : option (list float)) (r : Robot) : Robot :=
  {| name := name r; halfSitting := v; dynamic := dynamic r;
     device := device r; dimension := dimension r;
     featureCom := featureCom r; featureComDes := featureComDes r;
     comTask := comTask r; features := features r; tasks := tasks r;
     filename := filename r; members := members r |}.

Definition with_dynamic (v : option loc) (r : Robot) : Robot :=
  {| name := name r; halfSitting := halfSitting r; dynamic := v;
     device := device r; dimension := dimension r;
     featureCom := featureCom r; featureComDes := featureComDes r;
     comTask := comTask r; features := features r; tasks := tasks r;
     filename := filename r; members := members r |}.

Definition with_device (v : option loc) (r : Robot) : Robot :=
  {| name := name r; halfSitting := halfSitting r; dynamic := dynamic r;
     device := v; dimension := dimension r;
     featureCom := featureCom r; featureComDes := featureComDes r;
     comTask := comTask r; features := features r; tasks := tasks r;
     filename := filename r; members := members r |}.

Definition with_dimension (v : option Z) (r : Robot) : Robot :=
  {| name := name r; halfSitting := halfSitting r; dynamic := dynamic r;
     device := device r; dimension := v;
     featureCom := featureCom r; featureComDes := featureComDes r;
     comTask := comTask r; features := features r; tasks := tasks r;
     filename := filename r; members := members r |}.

Definition with_featureCom (v : option loc) (r : Robot) : Robot :=
  {| name := name r; halfSitting := halfSitting r; dynamic := dynamic r;
     device := device r; dimension := dimension r;
     featureCom := v; featureComDes := featureComDes r;
     comTask := comTask r; features := features r; tasks := tasks r;
     filename := filename r; members := members r |}.

Definition with_featureComDes (v : option loc) (r : Robot) : Robot :=
  {| name := name r; halfSitting := halfSitting r; dynamic := dynamic r;
     device := device r; dimension := dimension r;
     featureCom := featureCom r; featureComDes := v;
     comTask := comTask r; features := features r; tasks := tasks r;
     filename := filename r; members := members r |}.

Definition with_comTask (v : option loc) (r : Robot) : Robot :=
  {| name := name r; halfSitting := halfSitting r; dynamic := dynamic r;
     device := device r; dimension := dimension r;
     featureCom := featureCom r; featureComDes := featureComDes r;
     comTask := v; features := features r; tasks := tasks r;
     filename := filename r; members := members r |}.

Definition with_features (v : option loc) (r : Robot) : Robot :=
  {| name := name r; halfSitting := halfSitting r; dynamic := dynamic r;
     device := device r; dimension := dimension r;
     featureCom := featureCom r; featureComDes := featureComDes r;
     comTask := comTask r; features := v; tasks := tasks r;
     filename := filename r; members := members r |}.

Definition with_tasks (v : option loc) (r : Robot) : Robot :=
  {| name := name r; halfSitting := halfSitting r; dynamic := dynamic r;
     device := device r; dimension := dimension r;
     featureCom := featureCom r; featureComDes := featureComDes r;
     comTask := comTask r; features := features r; tasks := v;
     filename := filename r; members := members r |}.

Definition with_filename (v : option string) (r : Robot) : Robot :=
  {| name := name r; halfSitting := halfSitting r; dynamic := dynamic r;
     device := device r; dimension := dimension r;
     featureCom := featureCom r; featureComDes := featureComDes r;
     comTask := comTask r; features := features r; tasks := tasks r;
     filename := v; members := members r |}.

Definition with_member (k : string) (v : loc) (r : Robot) : Robot :=
  {| name := name r; halfSitting := halfSitting r; dynamic := dynamic r;
     device := device r; dimension := dimension r;
     featureCom := featureCom r; featureComDes := featureComDes r;
     comTask := comTask r; features := features r; tasks := tasks r;
     filename := filename r; members := <[k := v]> (members r) |}.

(** [self.x] and [self.x = v]. *)
Definition self_get {A} (self : loc) (field : Robot -> A) : M A :=
  r ← get_robot self; ret (field r).

Definition self_set (self : loc) (upd : Robot -> Robot) : M unit :=
  r ← get_robot self; store self (ORobot (upd r)).

(** ** Collaborators

    The entities the module instantiates and wires.  Only what the
    module observes of them is kept: the attributes it assigns and the
    signals it plugs. *)

Definition SignalRef : Type := loc * string.

(** Modelled from the spec: the model handle's [setProperty(key, value)],
    implemented by the [Dynamic] entity outside the Python sources; it
    records the value under the key. *)
Definition setProperty (model : loc) (key value : string) : M unit :=
  d ← as_dynamic model "setProperty";
  store model (ODynamic (set_properties d (<[key := value]> (dyn_properties d)))).

(** Modelled from the spec: the model handle's [getDimension()]. *)
Definition getDimension (model : loc) : M Z :=
  d ← as_dynamic model "getDimension";
  ret (dyn_dimension d).

(** Modelled from the spec: the model handle's
    [createOpPoint(name, referenceName)] materializes a position signal
    keyed by the point name and a Jacobian signal keyed by ["J"] followed
    by the point name. *)
Definition createOpPoint (model : loc) (op joint : string) : M unit :=
  d ← as_dynamic model "createOpPoint";
  store model
    (ODynamic (set_signals d (dyn_opPoints d ++ [(op, joint)])
                 (<["J" +:+ op := None]> (<[op := None]> (dyn_signals d))))).

(** Modelled from the spec: the model handle's [signal(name)]; asking for
    a signal the entity does not have raises. *)
Definition signal (model : loc) (n : string) : M SignalRef :=
  d ← as_dynamic model n;
  match dyn_signals d !! n with
  | Some _ => ret (model, n)
  | None => raise (Exception "ExceptionFactory" n)
  end.

(** [sig.recompute(t)] on an output signal of the model handle. *)
Definition recompute (sg : SignalRef) (t : Z) : M unit :=
  d ← as_dynamic sg.1 "recompute";
  store sg.1
    (ODynamic (set_signals d (dyn_opPoints d)
                 (<[sg.2 := Some (dyn_eval d sg.2 t (dyn_position d)
                                    (dyn_velocity d) (dyn_acceleration d))]>
                    (dyn_signals d)))).

(** [sig.value] on an output signal: the value last computed. *)
Definition value (sg : SignalRef) : M Value :=
  d ← as_dynamic sg.1 "value";
  match dyn_signals d !! sg.2 with
  | Some (Some v) => ret v
  | _ => raise (Exception "ExceptionSignal" sg.2)
  end.

(** A Python sequence of floats handed to a vector signal. *)
Definition to_vector (q : option (list float)) : M (list float) :=
  match q with
  | Some v => ret v
  | None => raise (TypeError "a sequence of floats is required")
  end.

Definition position_set_value (model : loc) (v : list float) : M unit :=
  d ← as_dynamic model "position";
  store model (ODynamic (set_position d (Constant (Vector v)))).

Definition velocity_set_value (model : loc) (v : list float) : M unit :=
  d ← as_dynamic model "velocity";
  store model (ODynamic (set_velocity d (Constant (Vector v)))).

Definition acceleration_set_value (model : loc) (v : list float) : M unit :=
  d ← as_dynamic model "acceleration";
  store model (ODynamic (set_acceleration d (Constant (Vector v)))).

(** [RobotSimu(name)] and [device.set(q)]. *)
Definition RobotSimu_new (n : string) : M loc :=
  alloc (ORobotSimu {| dev_name := n; dev_state := None |}).

Definition RobotSimu_set (dev : loc) (q : list float) : M unit :=
  s ← as_device dev "set";
  store dev (ORobotSimu {| dev_name := dev_name s; dev_state := Some q |}).

(** [FeatureGeneric(name)] and the signals of it the module touches. *)
Definition FeatureGeneric_new (n : string) : M loc :=
  alloc (OFeatureGeneric {| fg_name := n; fg_errorIN := Unset;
                            fg_jacobianIN := Unset; fg_selec := None;
                            fg_sdes := None |}).

Definition plug_errorIN (src : SignalRef) (f : loc) : M unit :=
  g ← as_generic f "errorIN";
  store f (OFeatureGeneric {| fg_name := fg_name g;
                              fg_errorIN := Plugged src.1 src.2;
                              fg_jacobianIN := fg_jacobianIN g;
                              fg_selec := fg_selec g; fg_sdes := fg_sdes g |}).

Definition plug_jacobianIN (src : SignalRef) (f : loc) : M unit :=
  g ← as_generic f "jacobianIN";
  store f (OFeatureGeneric {| fg_name := fg_name g;
                              fg_errorIN := fg_errorIN g;
                              fg_jacobianIN := Plugged src.1 src.2;
                              fg_selec := fg_selec g; fg_sdes := fg_sdes g |}).

Definition errorIN_set_value (f : loc) (v : Value) : M unit :=
  g ← as_generic f "errorIN";
  store f (OFeatureGeneric {| fg_name := fg_name g;
                              fg_errorIN := Constant v;
                              fg_jacobianIN := fg_jacobianIN g;
                              fg_selec := fg_selec g; fg_sdes := fg_sdes g |}).

Definition selec_set_value (f : loc) (mask : string) : M unit :=
  g ← as_generic f "selec";
  store f (OFeatureGeneric {| fg_name := fg_name g;
                              fg_errorIN := fg_errorIN g;
                              fg_jacobianIN := fg_jacobianIN g;
                              fg_selec := Some mask; fg_sdes := fg_sdes g |}).

Definition sdes_set_value (f : loc) (des : option loc) : M unit :=
  g ← as_generic f "sdes";
  store f (OFeatureGeneric {| fg_name := fg_name g;
                              fg_errorIN := fg_errorIN g;
                              fg_jacobianIN := fg_jacobianIN g;
                              fg_selec := fg_selec g; fg_sdes := des |}).

(** [Task(name)], [task.add(featureName)] and [task.controlGain.value = g]. *)
Definition Task_new (n : string) : M loc :=
  alloc (OTask {| task_name := n; task_features := [];
                  task_controlGain := None |}).

Definition Task_add (t : loc) (feature : string) : M unit :=
  k ← as_task t "add";
  store t (OTask {| task_name := task_name k;
                    task_features := task_features k ++ [feature];
                    task_controlGain := task_controlGain k |}).

Definition controlGain_set_value (t : loc) (g : float) : M unit :=
  k ← as_task t "controlGain";
  store t (OTask {| task_name := task_name k;
                    task_features := task_features k;
                    task_controlGain := Some g |}).

(** [FeaturePosition(name, signalPosition, signalJacobian,
    referencePosition)]: the feature is plugged to the two signals and its
    reference holds the given value. *)
Definition FeaturePosition_new (n : string) (pos jac : SignalRef)
    (reference : Value) : M loc :=
  alloc (OFeaturePosition {| fp_name := n;
                             fp_position := Plugged pos.1 pos.2;
                             fp_jacobian := Plugged jac.1 jac.2;
                             fp_reference := Constant reference |}).

(** [dict()], [d[k] = v] and [d[k]]. *)
Definition dict_new : M loc := alloc (ODict ∅).

Definition dict_setitem (d : loc) (k : string) (v : loc) : M unit :=
  m ← as_dict d "__setitem__";
  store d (ODict (<[k := v]> m)).

Definition dict_getitem (d : loc) (k : string) : M loc :=
  m ← as_dict d "__getitem__";
  match m !! k with
  | Some v => ret v
  | None => raise (KeyError k)
  end.

(** The floating-point literals [1.] and [.2]; the second is the double
    nearest to two tenths. *)
Definition gain_com : float := 1%float.
Definition gain_op : float := 0x1.999999999999ap-3%float.

(** ** class AbstractHumanoidRobot *)

Definition OperationalPoints : list string :=
  ["left-wrist"; "right-wrist"; "left-ankle"; "right-ankle"].

(** [features = dict()] and [tasks = dict()] in the class body create two
    dictionaries when the module is loaded; the class attributes name
    these two objects from then on. *)
Definition AbstractHumanoidRobot_features : loc := 0.
Definition AbstractHumanoidRobot_tasks : loc := 1.

Definition module_heap : Heap :=
  {| next := 2;
     objs := <[AbstractHumanoidRobot_tasks := ODict ∅]>
               (<[AbstractHumanoidRobot_features := ODict ∅]> ∅) |}.

(** [self.features] and [self.tasks]: the instance binding when there is
    one, the class attribute otherwise. *)
Definition self_features (r : Robot) : loc :=
  default AbstractHumanoidRobot_features (features r).

Definition self_tasks (r : Robot) : loc :=
  default AbstractHumanoidRobot_tasks (tasks r).

(** A new instance: no binding of its own.  (In [HumanoidRobot] the class
    attribute [halfSitting] is an empty list rather than [None]; its
    constructor binds the attribute in the instance before any use.) *)
Definition blank : Robot :=
  {| name := None; halfSitting := None; dynamic := None; device := None;
     dimension := None; featureCom := None; featureComDes := None;
     comTask := None; features := None; tasks := None; filename := None;
     members := ∅ |}.

Definition new_instance : M loc := alloc (ORobot blank).

(** [self.dynamic.attr]: [self.dynamic] may be [None]. *)
Definition self_dynamic (self : loc) (attr : string) : M loc :=
  d ← self_get self dynamic; deref d attr.

Section Loaders.

(** [Parser(name, filename).parse()], a collaborator of the module. *)
Variable Parser_parse : string -> option string -> M loc.

(** [DynamicHrp2(name)], [model.setFiles(...)] and [model.parse()]:
    what they would do if the name [DynamicHrp2] were bound. *)
Variable DynamicHrp2 : string -> M loc.
Variable setFiles : loc -> string -> string -> string -> string -> M unit.
Variable parse : loc -> M unit.

(** A method returns an object or [None]. *)
Definition loadModelFromKxml (self : loc) (n : string)
    (fname : option string) : M (option loc) :=
  resolve "Parser";;
  model ← Parser_parse n fname;
  setProperty model "ComputeVelocity" "true";;
  setProperty model "ComputeCoM" "true";;
  setProperty model "ComputeAccelerationCoM" "false";;
  setProperty model "ComputeMomentum" "false";;
  setProperty model "ComputeZMP" "true";;
  setProperty model "ComputeBackwardDynamics" "false";;
  ret (Some model).

Definition loadModelFromJrlDynamics (self : loc) (n modelDir modelName
    specificitiesPath jointRankPath : string) : M (option loc) :=
  resolve "DynamicHrp2";;
  model ← DynamicHrp2 n;
  setFiles model modelDir modelName specificitiesPath jointRankPath;;
  parse model;;
  ret None.

End Loaders.

Definition initializeOpPoints (self : loc) (model : option loc)
    (prefix : string) : M unit :=
  for_each OperationalPoints
    (fun op => m ← deref model "createOpPoint"; createOpPoint m op op).

(** The body of [for op in self.OperationalPoints] in [initializeRobot]. *)
Definition operational_point_task (self : loc) (op : string) : M unit :=
  m ← self_dynamic self "signal"; sg ← signal m op; recompute sg 0;;
  m ← self_dynamic self "signal"; sg ← signal m ("J" +:+ op);
  recompute sg 0;;
  resolve "FeaturePosition";;
  n ← self_get self name; s ← str_add n ".feature."; let fname := s +:+ op in
  m ← self_dynamic self "signal"; pos ← signal m op;
  m ← self_dynamic self "signal"; jac ← signal m ("J" +:+ op);
  m ← self_dynamic self "signal"; sg ← signal m op; reference ← value sg;
  f ← FeaturePosition_new fname pos jac reference;
  fs ← self_get self self_features; dict_setitem fs op f;;
  resolve "Task";;
  n ← self_get self name; s ← str_add n ".task.";
  t ← Task_new (s +:+ op);
  ts ← self_get self self_tasks; dict_setitem ts op t;;
  ts ← self_get self self_tasks; t ← dict_getitem ts op;
  n ← self_get self name; s ← str_add n ".feature.";
  Task_add t (s +:+ op);;
  ts ← self_get self self_tasks; t ← dict_getitem ts op;
  controlGain_set_value t gain_op;;
  resolve "setattr";;
  fs ← self_get self self_features; f ← dict_getitem fs op;
  self_set self (with_member (memberName op) f).

(** [initializeRobot], block by block in the order of the source. *)

(** [if not self.dynamic: raise RunTimeError(...)] *)
Definition check_model (self : loc) : M unit :=
  dyn ← self_get self dynamic; b ← truth dyn;
  if_not b
    (resolve "RunTimeError";;
     raise (Exception "RunTimeError"
              "robots models have to be initialized first")).

(** [if not self.device: self.device = RobotSimu(self.name + '.device')] *)
Definition ensure_device (self : loc) : M unit :=
  dev ← self_get self device; b ← truth dev;
  if_not b
    (resolve "RobotSimu";;
     n ← self_get self name; s ← str_add n ".device";
     d ← RobotSimu_new s;
     self_set self (with_device (Some d))).

(** [self.device.set(self.halfSitting)] and the three assignments to
    [self.dynamic.position], [.velocity] and [.acceleration]. *)
Definition set_half_sitting (self : loc) : M unit :=
  dev ← self_get self device; dev ← deref dev "set";
  hs ← self_get self halfSitting; q ← to_vector hs;
  RobotSimu_set dev q;;
  hs ← self_get self halfSitting; q ← to_vector hs;
  m ← self_dynamic self "position"; position_set_value m q;;
  dim ← self_get self dimension; z ← tuple_mul dim;
  m ← self_dynamic self "velocity"; velocity_set_value m z;;
  dim ← self_get self dimension; z ← tuple_mul dim;
  m ← self_dynamic self "acceleration"; acceleration_set_value m z.

(** [# --- center of mass ------------] *)
Definition center_of_mass (self : loc) : M unit :=
  m ← self_dynamic self "com"; sg ← signal m "com"; recompute sg 0;;
  m ← self_dynamic self "Jcom"; sg ← signal m "Jcom"; recompute sg 0;;
  resolve "FeatureGeneric";;
  n ← self_get self name; s ← str_add n ".feature.com";
  f ← FeatureGeneric_new s;
  self_set self (with_featureCom (Some f));;
  resolve "plug";;
  m ← self_dynamic self "com"; sg ← signal m "com";
  f ← self_get self featureCom; f ← deref f "errorIN";
  plug_errorIN sg f;;
  resolve "plug";;
  m ← self_dynamic self "Jcom"; sg ← signal m "Jcom";
  f ← self_get self featureCom; f ← deref f "jacobianIN";
  plug_jacobianIN sg f;;
  f ← self_get self featureCom; f ← deref f "selec";
  selec_set_value f "011";;
  resolve "FeatureGeneric";;
  n ← self_get self name; s ← str_add n ".feature.ref.com";
  f ← FeatureGeneric_new s;
  self_set self (with_featureComDes (Some f));;
  m ← self_dynamic self "com"; sg ← signal m "com"; v ← value sg;
  f ← self_get self featureComDes; f ← deref f "errorIN";
  errorIN_set_value f v;;
  des ← self_get self featureComDes;
  f ← self_get self featureCom; f ← deref f "sdes";
  sdes_set_value f des;;
  resolve "Task";;
  n ← self_get self name; s ← str_add n ".task.com";
  t ← Task_new s;
  self_set self (with_comTask (Some t));;
  t ← self_get self comTask; t ← deref t "add";
  n ← self_get self name; s ← str_add n ".feature.com";
  Task_add t s;;
  t ← self_get self comTask; t ← deref t "controlGain";
  controlGain_set_value t gain_com.

(** [# --- operational points tasks -----] *)
Definition operational_points_tasks (self : loc) : M unit :=
  resolve "dict";;
  d ← dict_new; self_set self (with_features (Some d));;
  resolve "dict";;
  d ← dict_new; self_set self (with_tasks (Some d));;
  for_each OperationalPoints (operational_point_task self).

Definition initializeRobot (self : loc) : M unit :=
  check_model self;;
  ensure_device self;;
  set_half_sitting self;;
  (m ← self_get self dynamic;
   n ← self_get self name; prefix ← str_add n ".dynamics";
   initializeOpPoints self m prefix);;
  center_of_mass self;;
  operational_points_tasks self.

Definition AbstractHumanoidRobot_init (self : loc) (n : string) : M unit :=
  self_set self (with_name (Some n)).

(** ** class HumanoidRobot(AbstractHumanoidRobot) *)

Section HumanoidRobot.

Variable Parser_parse : string -> option string -> M loc.

Definition HumanoidRobot_init (self : loc) (n fname : string) : M unit :=
  AbstractHumanoidRobot_init self n;;
  self_set self (with_filename (Some fname));;
  nm ← self_get self name; s ← str_add nm ".dynamics";
  f ← self_get self filename;
  model ← loadModelFromKxml Parser_parse self s f;
  self_set self (with_dynamic model);;
  m ← self_dynamic self "getDimension"; dim ← getDimension m;
  self_set self (with_dimension (Some dim));;
  dim ← self_get self dimension; z ← tuple_mul dim;
  self_set self (with_halfSitting (Some z));;
  initializeRobot self.

(** [HumanoidRobot(name, filename)]. *)
Definition HumanoidRobot (n fname : string) : M loc :=
  self ← new_instance;
  HumanoidRobot_init self n fname;;
  ret self.

End HumanoidRobot.

(** ** Reading the state back *)

(** The keys of the computation flags, in the order the loader sets them. *)
Definition flag_keys : list string :=
  ["ComputeVelocity"; "ComputeCoM"; "ComputeAccelerationCoM";
   "ComputeMomentum"; "ComputeZMP"; "ComputeBackwardDynamics"].

Definition flags (d : Dynamic) : list (option string) :=
  map (fun k => dyn_properties d !! k) flag_keys.

Definition fixed_profile : list (option string) :=
  [Some "true"; Some "true"; Some "false"; Some "false"; Some "true";
   Some "false"].

(** Positions of a selection mask, as written, that are switched off. *)
Fixpoint excluded_from (i : nat) (mask : string) : list nat :=
  match mask with
  | EmptyString => []
  | String c s =>
      if Ascii.eqb c "0" then i :: excluded_from (S i) s
      else excluded_from (S i) s
  end.

Definition excluded (mask : string) : list nat := excluded_from 0 mask.

(** What a feature reads on an input signal in a given store: its own
    constant, or the last value of the output signal it is plugged to. *)
Definition read (h : Heap) (s : Signal) : option Value :=
  match s with
  | Unset => None
  | Constant v => Some v
  | Plugged src n =>
      match objs h !! src with
      | Some (ODynamic d) => mjoin (dyn_signals d !! n)
      | _ => None
      end
  end.

(** Every object of a store was allocated: its identity is below the
    next free one. *)
Definition bounded (h : Heap) : Prop :=
  map_Forall (fun l _ => l < next h) (objs h).

(** A store of the running module: bounded, and holding the two
    dictionaries of the class body. *)
Definition heap_wf (h : Heap) : Prop :=
  bounded h /\
  exists fd td,
    objs h !! AbstractHumanoidRobot_features = Some (ODict fd) /\
    objs h !! AbstractHumanoidRobot_tasks = Some (ODict td).

(** ** Program logic

    [run m Q E h]: if [m] returns from [h], the result and the final store
    satisfy [Q]; if it raises, [E] holds.  With [E := True] this is
    partial correctness, with [E := False] total correctness, and with
    [E] the negation of a precondition it is both at once. *)

Definition run {A} (m : M A) (Q : A -> Heap -> Prop) (E : Prop) (h : Heap)
    : Prop :=
  match m h with
  | (h', inr a) => Q a h'
  | (_, inl _) => E
  end.

(** ** The state [initializeRobot] returns in, in closed form *)

Definition after_device (self : loc) : M unit :=
  set_half_sitting self;;
  (m ← self_get self dynamic;
   n ← self_get self name; prefix ← str_add n ".dynamics";
   initializeOpPoints self m prefix);;
  center_of_mass self;;
  operational_points_tasks self.

(** The value the model computes for signal [n] at time 0 once the state
    has been pushed. *)
Definition eval_at (d : Dynamic) (hs : list float) (dim : Z) (n : string)
    : Value :=
  dyn_eval d n 0 (Constant (Vector hs)) (Constant (Vector (zeros dim)))
    (Constant (Vector (zeros dim))).

Definition created_signals (s : gmap string (option Value))
    : gmap string (option Value) :=
  foldl (fun m op => <["J" +:+ op := None]> (<[op := None]> m)) s
    OperationalPoints.

Definition recomputed (ev : string -> Value) (names : list string)
    (s : gmap string (option Value)) : gmap string (option Value) :=
  foldl (fun m n => <[n := Some (ev n)]> m) s names.

Definition initialized_model (d : Dynamic) (hs : list float) (dim : Z)
    : Dynamic :=
  {| dyn_name := dyn_name d; dyn_dimension := dyn_dimension d;
     dyn_properties := dyn_properties d;
     dyn_position := Constant (Vector hs);
     dyn_velocity := Constant (Vector (zeros dim));
     dyn_acceleration := Constant (Vector (zeros dim));
     dyn_opPoints :=
       foldl (fun l op => (l ++ [(op, op)])%list) (dyn_opPoints d)
         OperationalPoints;
     dyn_signals :=
       recomputed (eval_at d hs dim)
         ("com" :: "Jcom" ::
          flat_map (fun op => [op; "J" +:+ op]) OperationalPoints)
         (created_signals (dyn_signals d));
     dyn_eval := dyn_eval d |}.

Definition op_feature (nm : string) (dl : loc) (ev : string -> Value)
    (op : string) : obj :=
  OFeaturePosition
    {| fp_name := (nm +:+ ".feature.") +:+ op;
       fp_position := Plugged dl op;
       fp_jacobian := Plugged dl ("J" +:+ op);
       fp_reference := Constant (ev op) |}.

Definition op_task (nm op : string) : obj :=
  OTask {| task_name := (nm +:+ ".task.") +:+ op;
           task_features := [(nm +:+ ".feature.") +:+ op];
           task_controlGain := Some gain_op |}.

(** Identities of the objects [initializeRobot] creates, counted from the
    first free identity [n]. *)
Definition feature_of (n : loc) (op : string) : loc :=
  if decide (op = "left-wrist") then 5 + n
  else if decide (op = "right-wrist") then 7 + n
  else if decide (op = "left-ankle") then 9 + n
  else 11 + n.

Definition task_of (n : loc) (op : string) : loc := S (feature_of n op).

Definition initialized_robot (r : Robot) (n : loc) : Robot :=
  {| name := name r; halfSitting := halfSitting r; dynamic := dynamic r;
     device := device r; dimension := dimension r;
     featureCom := Some n; featureComDes := Some (1 + n);
     comTask := Some (2 + n); features := Some (3 + n);
     tasks := Some (4 + n); filename := filename r;
     members :=
       foldl (fun m op => <[memberName op := feature_of n op]> m)
         (members r) OperationalPoints |}.

Definition initialized (h : Heap) (self dl dv : loc) (r : Robot)
    (d : Dynamic) (s : RobotSimu) (nm : string) (hs : list float) (dim : Z)
    : Heap :=
  let n := next h in
  let ev := eval_at d hs dim in
  {| next := 13 + n;
     objs :=
       <[12 + n := op_task nm "right-ankle"]>
      (<[11 + n := op_feature nm dl ev "right-ankle"]>
      (<[10 + n := op_task nm "left-ankle"]>
      (<[9 + n := op_feature nm dl ev "left-ankle"]>
      (<[8 + n := op_task nm "right-wrist"]>
      (<[7 + n := op_feature nm dl ev "right-wrist"]>
      (<[6 + n := op_task nm "left-wrist"]>
      (<[5 + n := op_feature nm dl ev "left-wrist"]>
      (<[4 + n := ODict (foldl (fun m op => <[op := task_of n op]> m) ∅
                           OperationalPoints)]>
      (<[3 + n := ODict (foldl (fun m op => <[op := feature_of n op]> m) ∅
                           OperationalPoints)]>
      (<[2 + n := OTask {| task_name := nm +:+ ".task.com";
                           task_features := [nm +:+ ".feature.com"];
                           task_controlGain := Some gain_com |}]>
      (<[1 + n := OFeatureGeneric
                    {| fg_name := nm +:+ ".feature.ref.com";
                       fg_errorIN := Constant (ev "com");
                       fg_jacobianIN := Unset; fg_selec := None;
                       fg_sdes := None |}]>
      (<[n := OFeatureGeneric
                {| fg_name := nm +:+ ".feature.com";
                   fg_errorIN := Plugged dl "com";
                   fg_jacobianIN := Plugged dl "Jcom";
                   fg_selec := Some "011"; fg_sdes := Some (1 + n) |}]>
      (<[dv := ORobotSimu {| dev_name := dev_name s; dev_state := Some hs |}]>
      (<[dl := ODynamic (initialized_model d hs dim)]>
      (<[self := ORobot (initialized_robot r n)]> (objs h))))))))))))))))
  |}.

Definition tail_ready (r : Robot) (o od : obj) : Prop :=
  exists nm hs dim d s,
    name r = Some nm /\ halfSitting r = Some hs /\ dimension r = Some dim /\
    o = ODynamic d /\ od = ORobotSimu s /\
    is_Some (dyn_signals d !! "com") /\ is_Some (dyn_signals d !! "Jcom").

(** What [ensure_device] leaves: the device the robot had, or a new one. *)
Inductive device_ready (h : Heap) (self : loc) (r : Robot)
    : loc -> obj -> Heap -> Prop :=
  | device_kept dv od :
      device r = Some dv -> objs h !! dv = Some od -> od <> ODict ∅ ->
      device_ready h self r dv od h
  | device_created nm :
      truth (device r) h = (h, inr false) -> name r = Some nm ->
      device_ready h self r (next h)
        (ORobotSimu {| dev_name := nm +:+ ".device"; dev_state := None |})
        {| next := S (next h);
           objs := <[next h := ORobotSimu {| dev_name := nm +:+ ".device";
                                             dev_state := None |}]>
                     (<[self := ORobot (with_device (Some (next h)) r)]>
                        (objs h)) |}.

(** The states from which [initializeRobot] returns. *)
Definition device_ok (h : Heap) (r : Robot) : Prop :=
  truth (device r) h = (h, inr false) \/
  exists dv s, device r = Some dv /\ objs h !! dv = Some (ORobotSimu s).

Definition ready (h : Heap) (self : loc) : Prop :=
  exists r nm hs dim dl d,
    objs h !! self = Some (ORobot r) /\
    name r = Some nm /\ halfSitting r = Some hs /\ dimension r = Some dim /\
    dynamic r = Some dl /\ objs h !! dl = Some (ODynamic d) /\
    is_Some (dyn_signals d !! "com") /\ is_Some (dyn_signals d !! "Jcom") /\
    device_ok h r.

(** The state [initializeRobot] returns in. *)
Definition initialization (h : Heap) (self : loc) (h' : Heap) : Prop :=
  exists r dl d dv s nm hs dim h1,
    objs h !! self = Some (ORobot r) /\
    name r = Some nm /\ halfSitting r = Some hs /\ dimension r = Some dim /\
    dynamic r = Some dl /\ objs h !! dl = Some (ODynamic d) /\
    is_Some (dyn_signals d !! "com") /\ is_Some (dyn_signals d !! "Jcom") /\
    device_ready h self r dv (ORobotSimu s) h1 /\
    h' = initialized h1 self dl dv (with_device (Some dv) r) d s nm hs dim.

(** The facts of a finished initialization, object by object. *)
Record Initialized (h : Heap) (self : loc) (h' : Heap) (r : Robot)
    (dl : loc) (d : Dynamic) (dv : loc) (s : RobotSimu) (nm : string)
    (hs : list float) (dim : Z) (n : loc) : Prop := {
  ini_self : objs h !! self = Some (ORobot r);
  ini_name : name r = Some nm;
  ini_halfSitting : halfSitting r = Some hs;
  ini_dimension : dimension r = Some dim;
  ini_dynamic : dynamic r = Some dl;
  ini_model : objs h !! dl = Some (ODynamic d);
  ini_device :
    (device r = Some dv /\ objs h !! dv = Some (ORobotSimu s) /\ n = next h)
    \/ (truth (device r) h = (h, inr false) /\ dv = next h /\ n = S (next h)
        /\ s = {| dev_name := nm +:+ ".device"; dev_state := None |});
  ini_next : next h' = 13 + n;
  ini_robot' :
    objs h' !! self =
      Some (ORobot (initialized_robot (with_device (Some dv) r) n));
  ini_model' : objs h' !! dl = Some (ODynamic (initialized_model d hs dim));
  ini_device' :
    objs h' !! dv =
      Some (ORobotSimu {| dev_name := dev_name s; dev_state := Some hs |});
  ini_featureCom :
    objs h' !! n =
      Some (OFeatureGeneric
              {| fg_name := nm +:+ ".feature.com";
                 fg_errorIN := Plugged dl "com";
                 fg_jacobianIN := Plugged dl "Jcom";
                 fg_selec := Some "011"; fg_sdes := Some (1 + n) |});
  ini_featureComDes :
    objs h' !! (1 + n) =
      Some (OFeatureGeneric
              {| fg_name := nm +:+ ".feature.ref.com";
                 fg_errorIN := Constant (eval_at d hs dim "com");
                 fg_jacobianIN := Unset; fg_selec := None;
                 fg_sdes := None |});
  ini_comTask :
    objs h' !! (2 + n) =
      Some (OTask {| task_name := nm +:+ ".task.com";
                     task_features := [nm +:+ ".feature.com"];
                     task_controlGain := Some gain_com |});
  ini_features :
    objs h' !! (3 + n) =
      Some (ODict (foldl (fun m op => <[op := feature_of n op]> m) ∅
                     OperationalPoints));
  ini_tasks :
    objs h' !! (4 + n) =
      Some (ODict (foldl (fun m op => <[op := task_of n op]> m) ∅
                     OperationalPoints));
  ini_feature : forall op, op ∈ OperationalPoints ->
    objs h' !! feature_of n op = Some (op_feature nm dl (eval_at d hs dim) op);
  ini_task : forall op, op ∈ OperationalPoints ->
    objs h' !! task_of n op = Some (op_task nm op);
  ini_fresh : forall l, n <= l -> objs h !! l = None;
  ini_bounded : bounded h';
  ini_frame : forall l, l < next h -> l <> self -> l <> dl -> l <> dv ->
    objs h' !! l = objs h !! l
}.

(* ---- sample states (definitions part) ---- *)
Definition sample_eval (n : string) (t : Z) (p v a : Signal) : Value :=
  match p with
  | Constant x => x
  | _ => Vector []
  end.

Definition sample_model (n : string) (dim : Z) : Dynamic :=
  {| dyn_name := n; dyn_dimension := dim; dyn_properties := ∅;
     dyn_position := Unset; dyn_velocity := Unset; dyn_acceleration := Unset;
     dyn_opPoints := [];
     dyn_signals := <["Jcom" := None]> (<["com" := None]> ∅);
     dyn_eval := sample_eval |}.

Definition sample_parse (n : string) (fname : option string) : M loc :=
  alloc (ODynamic (sample_model n 3)).

Definition precondition_error : exn :=
  Exception "PreconditionError" "models must be initialized first".

Definition unloaded_heap : Heap :=
  {| next := 3;
     objs := <[2 := ORobot (with_name (Some "r2") blank)]> (objs module_heap) |}.

(* ---- definitions part ---- *)
Definition sample_robot : Robot :=
  with_halfSitting (Some (zeros 3))
    (with_dimension (Some 3%Z)
       (with_dynamic (Some 3) (with_name (Some "r2") blank))).

Definition ready_heap : Heap :=
  {| next := 4;
     objs := <[3 := ODynamic (sample_model "r2.dynamics" 3)]>
               (<[2 := ORobot sample_robot]> (objs module_heap)) |}.

(** A subclass instance whose [halfSitting] has one entry while its
    [dimension] is two. *)
Definition mismatched_heap : Heap :=
  {| next := 4;
     objs := <[3 := ODynamic (sample_model "r2.dynamics" 2)]>
               (<[2 := ORobot (with_halfSitting (Some [0%float])
                                 (with_dimension (Some 2%Z)
                                    (with_dynamic (Some 3)
                                       (with_name (Some "r2") blank))))]>
                  (objs module_heap)) |}.

Definition vector_length (s : Signal) : option Z :=
  match s with
  | Constant (Vector v) => Some (Z.of_nat (length v))
  | _ => None
  end.

(** [len(halfSitting)], [dimension], [len(position.value)],
    [len(velocity.value)] and [len(acceleration.value)] of a robot. *)
Definition lengths (h : Heap) (self : loc) : option (list Z) :=
  match objs h !! self with
  | Some (ORobot r) =>
      hs ← halfSitting r; dim ← dimension r; dl ← dynamic r;
      match objs h !! dl with
      | Some (ODynamic d) =>
          p ← vector_length (dyn_position d);
          v ← vector_length (dyn_velocity d);
          a ← vector_length (dyn_acceleration d);
          Some [Z.of_nat (length hs); dim; p; v; a]
      | _ => None
      end
  | _ => None
  end.

(** The attributes and methods the two classes declare. *)
Definition declared_attributes : list string :=
  ["OperationalPoints"; "name"; "halfSitting"; "dynamic"; "device";
   "dimension"; "featureCom"; "featureComDes"; "comTask"; "features";
   "tasks"; "filename"; "loadModelFromKxml"; "loadModelFromJrlDynamics";
   "initializeOpPoints"; "initializeRobot"; "__init__"].

(** [AbstractHumanoidRobot(name)]: a new instance, then [__init__]. *)
Definition AbstractHumanoidRobot_new (n : string) : M loc :=
  self ← new_instance;
  AbstractHumanoidRobot_init self n;;
  ret self.

(** Two robots ready to be initialized, each with its own model. *)
Definition two_robots_heap : Heap :=
  {| next := 6;
     objs := <[5 := ODynamic (sample_model "r3.dynamics" 3)]>
               (<[4 := ORobot (with_halfSitting (Some (zeros 3))
                                 (with_dimension (Some 3%Z)
                                    (with_dynamic (Some 5)
                                       (with_name (Some "r3") blank))))]>
                  (objs ready_heap)) |}.

(** * Verification *)

(** ** Rules of the program logic *)

Lemma run_ret {A} (a : A) (Q : A -> Heap -> Prop) (E : Prop) (h : Heap) :
  Q a h -> run (ret a) Q E h.
Proof. intros HQ. exact HQ. Qed.

Lemma run_raise {A} (e : exn) (Q : A -> Heap -> Prop) (E : Prop) (h : Heap) :
  E -> run (raise e) Q E h.
Proof. intros HE. exact HE. Qed.

Lemma run_bind {A B} (m : M A) (f : A -> M B) (Q : B -> Heap -> Prop)
    (E : Prop) (h : Heap) :
  run m (fun a h1 => run (f a) Q E h1) E h -> run (m ≫= f) Q E h.
Proof.
  unfold run, mbind, M_bind, bind.
  destruct (m h) as [h1 [e|a]]; intros Hm; exact Hm.
Qed.

Lemma run_mono {A} (m : M A) (Q Q' : A -> Heap -> Prop) (E E' : Prop)
    (h : Heap) :
  run m Q E h -> (forall a h', Q a h' -> Q' a h') -> (E -> E') ->
  run m Q' E' h.
Proof.
  unfold run. destruct (m h) as [h1 [e|a]]; intros Hm HQ HE; auto.
Qed.

Lemma run_returns {A} (m : M A) (Q : A -> Heap -> Prop) (E : Prop)
    (h h' : Heap) (a : A) :
  run m Q E h -> m h = (h', inr a) -> Q a h'.
Proof. unfold run. intros Hm Hrun. rewrite Hrun in Hm. exact Hm. Qed.

Lemma run_total {A} (m : M A) (Q : A -> Heap -> Prop) (E : Prop) (h : Heap) :
  run m Q E h -> ~ E -> exists h' a, m h = (h', inr a) /\ Q a h'.
Proof.
  unfold run. destruct (m h) as [h1 [e|a]]; intros Hm HE.
  - contradiction.
  - exists h1, a. split; [reflexivity | exact Hm].
Qed.

Lemma run_alloc o (Q : loc -> Heap -> Prop) E h :
  Q (next h) {| next := S (next h); objs := <[next h := o]> (objs h) |} ->
  run (alloc o) Q E h.
Proof. intros HQ. exact HQ. Qed.

Lemma run_store l o (Q : unit -> Heap -> Prop) E h m' :
  <[l := o]> (objs h) = m' ->
  Q tt {| next := next h; objs := m' |} -> run (store l o) Q E h.
Proof. intros <- HQ. exact HQ. Qed.

Lemma run_load l (Q : obj -> Heap -> Prop) (E : Prop) h :
  (forall o, objs h !! l = Some o -> Q o h) ->
  (objs h !! l = None -> E) ->
  run (load l) Q E h.
Proof.
  intros HQ HE. unfold run, load.
  destruct (objs h !! l) as [o|]; [apply HQ | apply HE]; reflexivity.
Qed.

Lemma run_resolve n (Q : unit -> Heap -> Prop) (E : Prop) h :
  (bool_decide (n ∈ (module_globals ++ builtins)%list) = true -> Q tt h) ->
  (bool_decide (n ∈ (module_globals ++ builtins)%list) = false -> E) ->
  run (resolve n) Q E h.
Proof.
  intros HQ HE. unfold run, resolve.
  destruct (bool_decide _); [apply HQ | apply HE]; reflexivity.
Qed.

Lemma run_load_eq l r (Q : obj -> Heap -> Prop) (E : Prop) h :
  objs h !! l = r ->
  match r with Some o => Q o h | None => E end ->
  run (load l) Q E h.
Proof. intros <- H. unfold run, load. destruct (objs h !! l); exact H. Qed.

Lemma lookup_here {V} (m : gmap loc V) (l : loc) (o : V) :
  <[l := o]> m !! l = Some o.
Proof. apply lookup_insert_eq. Qed.

Lemma lookup_skip {V} (m : gmap loc V) (l l' : loc) (o : V) r :
  l' <> l -> m !! l = r -> <[l' := o]> m !! l = r.
Proof. intros Hne <-. apply lookup_insert_ne. exact Hne. Qed.

Lemma succ_ne (k j n : nat) : Nat.eqb k j = false -> k + n <> j + n.
Proof. intros H%Nat.eqb_neq. lia. Qed.

Lemma below_ne (x k n : nat) : x < n -> x <> k + n.
Proof. lia. Qed.

Lemma above_ne (x k n : nat) : x < n -> k + n <> x.
Proof. lia. Qed.

Lemma bounded_lookup h l o : bounded h -> objs h !! l = Some o -> l < next h.
Proof. intros Hb Hl. exact (Hb l o Hl). Qed.

Lemma sink_down {V} (m m' : gmap loc V) (l l' : loc) (o o' : V) :
  l ≠ l' -> <[l := o]> m = m' -> <[l := o]> (<[l' := o']> m) = <[l' := o']> m'.
Proof. intros Hne <-. apply insert_insert_ne. exact Hne. Qed.

(* Disequalities between object identities: hypotheses, or offsets from
   the first free identity. *)
Ltac count_succ t :=
  lazymatch t with
  | S ?t' => let k := count_succ t' in constr:(S k)
  | _ => constr:(O)
  end.

Ltac succ_base t :=
  lazymatch t with
  | S ?t' => succ_base t'
  | _ => t
  end.

Ltac ne_tac :=
  first
    [ assumption
    | apply not_eq_sym; assumption
    | lazymatch goal with
      | |- ?a <> ?b =>
          let ka := count_succ a in let kb := count_succ b in
          let na := succ_base a in let nb := succ_base b in
          first
            [ constr_eq na nb; exact (succ_ne ka kb na eq_refl)
            | is_var a; exact (below_ne a kb nb ltac:(assumption))
            | is_var b; exact (above_ne b ka na ltac:(assumption)) ]
      end
    | lia ].

Ltac sink :=
  first [ apply insert_insert_eq
        | apply sink_down; [ne_tac | sink]
        | reflexivity ].

(* Solve [m !! l = ?r] through the layers of [m]. *)
Ltac find_lookup :=
  first [ apply lookup_here
        | apply lookup_skip; [ne_tac | find_lookup]
        | eassumption ].

(* Evaluate the concatenations whose left operand is a literal. *)
Ltac norm_str t :=
  lazymatch t with
  | context C [String.append (String ?c ?r) ?b] =>
      let v := eval cbv in (String.append (String c r) b) in
      let t' := context C [v] in
      norm_str t'
  | _ => t
  end.

(* Normalise a value: unfold the field updates and reduce projections of
   record literals and concatenations of literal strings. *)
Ltac norm_val t :=
  let t1 := eval cbv beta iota zeta delta
    [set_properties set_position set_velocity set_acceleration set_signals
     with_name with_halfSitting with_dynamic with_device with_dimension
     with_featureCom with_featureComDes with_comTask with_features with_tasks
     with_filename with_member self_features self_tasks default from_option
     id] in t in
  let t2 := eval cbn
    [name halfSitting dynamic device dimension featureCom featureComDes
     comTask features tasks filename members
     dyn_name dyn_dimension dyn_properties dyn_position dyn_velocity
     dyn_acceleration dyn_opPoints dyn_signals dyn_eval
     dev_name dev_state fg_name fg_errorIN fg_jacobianIN fg_selec fg_sdes
     fp_name fp_position fp_jacobian fp_reference
     task_name task_features task_controlGain
     fst snd next objs] in t1 in
  norm_str t2.

Ltac head_of t :=
  lazymatch t with
  | ?f _ => head_of f
  | _ => t
  end.

(* Simplify a store lookup hypothesis down to the base store. *)
Ltac simpl_lookup_in H :=
  cbn [objs next] in H;
  repeat first
    [ rewrite lookup_insert_eq in H
    | rewrite lookup_insert_ne in H by ne_tac
    | rewrite lookup_insert in H;
      let E := fresh "E" in
      destruct (decide _) as [E|E] in H; [try subst|] ].

Ltac note_bound H :=
  lazymatch type of H with
  | objs ?h !! ?l = Some ?o =>
      lazymatch goal with
      | Hb : bounded h |- _ =>
          let B := fresh "B" in pose proof (bounded_lookup h l o Hb H) as B
      | _ => idtac
      end
  | _ => idtac
  end.

Ltac use_known H :=
  lazymatch type of H with
  | Some _ = Some _ => injection H as H; try subst
  | ?lhs = Some ?o =>
      first [ match goal with
              | K : lhs = Some _ |- _ =>
                  rewrite K in H; injection H as H; try subst
              end
            | note_bound H ]
  end.

Ltac simpl_keys :=
  repeat first
    [ rewrite lookup_insert_eq
    | rewrite lookup_insert_ne by discriminate ].

(* Close a branch in which the program raised. *)
Ltac failed :=
  first
    [ exact I
    | let HP := fresh in
      intros HP;
      repeat match goal with
        | H : exists _, _ |- _ => destruct H
        | H : _ /\ _ |- _ => destruct H
        | H : is_Some _ |- _ => destruct H
        | H : _ \/ _ |- _ => destruct H
        end;
      first [ discriminate | congruence ] ].

Ltac step :=
  lazymatch goal with
  | |- run ?m ?Q ?E ?h =>
      lazymatch m with
      | mbind _ _ => apply run_bind
      | ret ?a =>
          let a' := norm_val a in
          change (run (ret a') Q E h); apply run_ret; cbv beta
      | raise _ => apply run_raise; failed
      | alloc ?o =>
          let o' := norm_val o in
          change (run (alloc o') Q E h);
          apply run_alloc; cbv beta; cbn [next objs]
      | store ?l ?o =>
          let o' := norm_val o in
          let l' := norm_val l in
          change (run (store l' o') Q E h);
          eapply run_store; [cbn [objs]; sink | cbv beta; cbn [next objs] ]
      | load ?l =>
          let l' := norm_val l in
          change (run (load l') Q E h);
          let o := fresh "o" in let Ho := fresh "Ho" in
          first
            [ eapply run_load_eq; [cbn [objs]; find_lookup | cbv beta iota]
            | apply run_load;
              [ intros o Ho; simpl_lookup_in Ho; use_known Ho; cbv beta
              | intros Ho; simpl_lookup_in Ho; first [ congruence | failed ] ] ]
      | resolve _ =>
          let H := fresh in
          apply run_resolve; intros H;
          [ first [ discriminate H | clear H ]; cbv beta
          | first [ discriminate H | failed ] ]
      | for_each _ _ =>
          let m1 := eval cbv delta [OperationalPoints] in m in
          let m2 := eval cbn [for_each] in m1 in
          change (run m2 Q E h)
      | match ?x with _ => _ end =>
          first [ let x' := norm_val x in progress (change x with x')
                | is_var x; destruct x
                | match goal with K : x = _ |- _ => rewrite K end
                | progress simpl_keys
                | destruct x eqn:? ]
      | _ =>
          let hd := head_of m in
          let m' := eval cbv beta iota zeta delta [hd] in m in
          change (run m' Q E h)
      end
  end.

Ltac steps := repeat step.

Lemma after_device_run self h r dl dv o od :
  bounded h ->
  objs h !! self = Some (ORobot r) ->
  dynamic r = Some dl -> device r = Some dv ->
  objs h !! dl = Some o -> objs h !! dv = Some od ->
  run (after_device self)
    (fun _ h' => exists nm hs dim d s,
        name r = Some nm /\ halfSitting r = Some hs /\
        dimension r = Some dim /\ o = ODynamic d /\ od = ORobotSimu s /\
        is_Some (dyn_signals d !! "com") /\
        is_Some (dyn_signals d !! "Jcom") /\
        h' = initialized h self dl dv r d s nm hs dim)
    (~ tail_ready r o od) h.
Proof.
  intros Hb Hself Hdyn Hdev Hdl Hdv. unfold tail_ready.
  pose proof (bounded_lookup _ _ _ Hb Hself). pose proof (bounded_lookup _ _ _ Hb Hdl). pose proof (bounded_lookup _ _ _ Hb Hdv).
  destruct r as [nm hs dyn dev dim fc fcd ct fs ts fn ms].
  cbn [dynamic device name halfSitting dimension] in *. subst dyn dev.
  steps.
  (eexists _, _, _, _, _; repeat split; eauto; reflexivity).
Qed.

Lemma check_model_run self h :
  run (check_model self)
    (fun _ h' => h' = h /\ exists r dl o, objs h !! self = Some (ORobot r) /\
        dynamic r = Some dl /\ objs h !! dl = Some o /\ o <> ODict ∅)
    (~ exists r dl d, objs h !! self = Some (ORobot r) /\
        dynamic r = Some dl /\ objs h !! dl = Some (ODynamic d)) h.
Proof.
  steps.
  all: try (split; [reflexivity|]; eexists _, _, _; repeat split; eauto;
            try discriminate).
  intros [= ->]. rewrite bool_decide_eq_true_2 in Heqb by reflexivity.
  discriminate.
Qed.

Lemma truth_dict h l d :
  objs h !! l = Some (ODict d) ->
  truth (Some l) h = (h, inr (negb (bool_decide (d = ∅)))).
Proof.
  intros Hl. unfold truth, mbind, M_bind, bind, load. rewrite Hl. reflexivity.
Qed.

Lemma truth_object h l o :
  objs h !! l = Some o -> (forall d, o <> ODict d) ->
  truth (Some l) h = (h, inr true).
Proof.
  intros Hl Hne. unfold truth, mbind, M_bind, bind, load. rewrite Hl.
  destruct o; try reflexivity. destruct (Hne d). reflexivity.
Qed.

Lemma ensure_device_run self h r :
  bounded h -> objs h !! self = Some (ORobot r) ->
  run (ensure_device self)
    (fun _ h' => exists dv od, device_ready h self r dv od h')
    (~ (is_Some (name r) /\
        (device r = None \/
         exists dv od, device r = Some dv /\ objs h !! dv = Some od))) h.
Proof.
  intros Hb Hself. pose proof (bounded_lookup _ _ _ Hb Hself).
  steps.
  all: try (eexists _, _; eapply device_kept; eauto; try discriminate;
            intros [= ->]; rewrite bool_decide_eq_true_2 in Heqb by reflexivity;
            discriminate).
  - eexists _, _. apply (device_created h self r s); [|assumption].
    rewrite Heqo, (truth_dict _ _ _ Ho), Heqb. reflexivity.
  - eexists _, _. apply (device_created h self r s); [|assumption].
    rewrite Heqo. reflexivity.
Qed.

Lemma device_ready_bounded h self r dv od h1 :
  bounded h -> objs h !! self = Some (ORobot r) ->
  device_ready h self r dv od h1 ->
  bounded h1 /\ objs h1 !! self = Some (ORobot (with_device (Some dv) r)) /\
  objs h1 !! dv = Some od /\ next h <= next h1 /\
  (forall l, l <> self -> l < next h -> objs h1 !! l = objs h !! l).
Proof.
  intros Hb Hself [dv' od' Hdev Hdv Hne | nm Ht Hnm].
  - repeat split; auto.
    rewrite Hself. do 2 f_equal. destruct r; cbn in *. subst. reflexivity.
  - pose proof (bounded_lookup _ _ _ Hb Hself). cbn [next objs]. repeat split.
    + intros l o. cbn [next objs]. rewrite !lookup_insert.
      repeat case_decide; subst; try lia. intros Hl. apply (bounded_lookup _ _ _ Hb) in Hl. lia.
    + rewrite lookup_insert_ne by lia. apply lookup_insert_eq.
    + apply lookup_insert_eq.
    + lia.
    + intros l Hl1 Hl2. rewrite !lookup_insert_ne by lia. reflexivity.
Qed.

Lemma device_ok_falsy h r :
  truth (device r) h = (h, inr false) ->
  device r = None \/ exists dv, device r = Some dv /\ objs h !! dv = Some (ODict ∅).
Proof.
  destruct (device r) as [dv|]; [|left; reflexivity].
  intros Ht. right. exists dv. split; [reflexivity|].
  unfold truth, mbind, M_bind, bind, load in Ht.
  destruct (objs h !! dv) as [[d| | | | | |]|]; try discriminate.
  injection Ht as Ht. destruct (bool_decide (d = ∅)) eqn:Hd; [|discriminate].
  apply bool_decide_eq_true_1 in Hd. subst. reflexivity.
Qed.

Lemma initializeRobot_run self h :
  bounded h ->
  run (initializeRobot self) (fun _ h' => initialization h self h')
    (~ ready h self) h.
Proof.
  intros Hb.
  change (initializeRobot self)
    with (check_model self;; ensure_device self;; after_device self).
  apply run_bind. eapply run_mono; [apply check_model_run| |].
  2:{ intros Hn (r & nm & hs & dim & dl & d & Hself & _ & _ & _ & Hdyn & Hdl & _).
      apply Hn. exists r, dl, d. auto. }
  intros [] ? (-> & r & dl & o & Hself & Hdyn & Hdl & Hne).
  apply run_bind.
  eapply run_mono; [apply (ensure_device_run self h r Hb Hself)| |].
  2:{ intros Hn (r' & nm & hs & dim & dl' & d & Hself' & Hnm & _ & _ & _ & _ & _
                 & _ & Hok).
      assert (r' = r) as -> by congruence.
      apply Hn. split; [eauto|].
      destruct Hok as [Hf | (dv & s & Hdev & Hdv)]; [|eauto 6].
      destruct (device_ok_falsy _ _ Hf) as [?|(dv & ? & ?)]; eauto 6. }
  intros [] h1 (dv & od & Hready).
  destruct (device_ready_bounded _ _ _ _ _ _ Hb Hself Hready)
    as (Hb1 & Hself1 & Hdv1 & Hle & Hframe).
  pose proof (bounded_lookup _ _ _ Hb Hself) as Bself. pose proof (bounded_lookup _ _ _ Hb Hdl) as Bdl.
  assert (Htail : forall o1, objs h1 !! dl = Some o1 ->
            (dl <> self -> o1 = o) ->
            run (after_device self) (fun _ h' => initialization h self h')
              (~ ready h self) h1).
  { intros o1 Hdl1 Ho1.
    eapply run_mono;
      [apply (after_device_run self h1 _ dl dv o1 od Hb1 Hself1 Hdyn eq_refl
                Hdl1 Hdv1)| |].
    - intros [] h2 (nm & hs & dim & d & s & Hnm & Hhs & Hdim & -> & -> & Hc & Hj
                    & ->).
      assert (dl <> self).
      { intros ->. rewrite Hself1 in Hdl1. discriminate. }
      exists r, dl, d, dv, s, nm, hs, dim, h1. repeat split; auto.
      rewrite (Ho1 H). exact Hdl.
    - intros Hn (r' & nm & hs & dim & dl' & d & Hself' & Hnm & Hhs & Hdim & Hdyn'
                 & Hdl' & Hc & Hj & Hok).
      assert (r' = r) as -> by congruence.
      assert (dl' = dl) as -> by congruence.
      assert (dl <> self) by (intros ->; congruence).
      assert (o1 = ODynamic d) as -> by (rewrite (Ho1 ltac:(assumption)); congruence).
      apply Hn. exists nm, hs, dim, d.
      destruct Hready as [dv' od' Hdev Hdv Hned | nm' Ht Hnm'].
      + destruct Hok as [Hf | (dv2 & s & Hdev2 & Hdv2)].
        * exfalso. rewrite Hdev in Hf.
          destruct od'; try (rewrite (truth_object _ _ _ Hdv) in Hf by discriminate; discriminate).
          rewrite (truth_dict _ _ _ Hdv) in Hf. injection Hf as Hf.
          destruct (bool_decide (d0 = ∅)) eqn:Hd; [|discriminate].
          apply bool_decide_eq_true_1 in Hd. subst. contradiction.
        * assert (dv2 = dv') as -> by congruence.
          exists s. repeat split; auto. congruence.
      + eexists. repeat split; eauto. }
  destruct (decide (dl = self)) as [->|Hdl_self].
  - eapply Htail; [exact Hself1 | congruence].
  - eapply (Htail o); [rewrite Hframe; auto | reflexivity].
Qed.

Lemma initializeRobot_returns self h h' :
  bounded h -> initializeRobot self h = (h', inr tt) ->
  initialization h self h'.
Proof.
  intros Hb Hrun. exact (run_returns _ _ _ _ _ _ (initializeRobot_run self h Hb) Hrun).
Qed.

Lemma initializeRobot_total self h :
  bounded h -> ready h self ->
  exists h', initializeRobot self h = (h', inr tt) /\ initialization h self h'.
Proof.
  intros Hb Hr.
  destruct (run_total _ _ _ _ (initializeRobot_run self h Hb)) as (h' & [] & H1 & H2).
  - intros Hn. exact (Hn Hr).
  - exists h'. split; assumption.
Qed.

Lemma initialization_ready self h h' : initialization h self h' -> ready h self.
Proof.
  intros (r & dl & d & dv & s & nm & hs & dim & h1 & Hself & Hnm & Hhs & Hdim
          & Hdyn & Hdl & Hc & Hj & Hready & _).
  exists r, nm, hs, dim, dl, d. repeat split; auto.
  inversion Hready; subst.
  - right. eauto.
  - left. assumption.
Qed.

Lemma elem_of_OperationalPoints op :
  op ∈ OperationalPoints ->
  op = "left-wrist" \/ op = "right-wrist" \/ op = "left-ankle" \/
  op = "right-ankle".
Proof.
  unfold OperationalPoints. rewrite !elem_of_cons, elem_of_nil. tauto.
Qed.

Lemma initialization_facts h self h' :
  bounded h -> initialization h self h' ->
  exists r dl d dv s nm hs dim n,
    Initialized h self h' r dl d dv s nm hs dim n.
Proof.
  intros Hb (r & dl & d & dv & s & nm & hs & dim & h1 & Hself & Hnm & Hhs & Hdim
             & Hdyn & Hdl & Hc & Hj & Hready & ->).
  destruct (device_ready_bounded _ _ _ _ _ _ Hb Hself Hready)
    as (Hb1 & Hself1 & Hdv1 & Hle & Hframe).
  pose proof (bounded_lookup _ _ _ Hb Hself) as Bself. pose proof (bounded_lookup _ _ _ Hb Hdl) as Bdl.
  assert (Hds : dl <> self) by (intros ->; congruence).
  assert (Hdl1 : objs h1 !! dl = Some (ODynamic d)) by (rewrite Hframe; auto).
  assert (Hvs : dv <> self) by (intros ->; congruence).
  assert (Hvd : dv <> dl) by (intros ->; congruence).
  pose proof (bounded_lookup _ _ _ Hb1 Hdv1) as Bdv.
  assert (Bself1 : self < next h1) by lia.
  assert (Bdl1 : dl < next h1) by lia.
  exists r, dl, d, dv, s, nm, hs, dim, (next h1).
  split; auto; unfold initialized; cbn [next objs].
  - inversion Hready as [? ? ? ? ? | nm0 ? Hnm0]; subst; [left; auto | right].
    assert (nm0 = nm) as -> by congruence. auto.
  - rewrite !lookup_insert_ne by lia. apply lookup_insert_eq.
  - rewrite !lookup_insert_ne by lia. apply lookup_insert_eq.
  - rewrite !lookup_insert_ne by lia. apply lookup_insert_eq.
  - rewrite !lookup_insert_ne by lia. apply lookup_insert_eq.
  - rewrite !lookup_insert_ne by lia. apply lookup_insert_eq.
  - rewrite !lookup_insert_ne by lia. apply lookup_insert_eq.
  - rewrite !lookup_insert_ne by lia. apply lookup_insert_eq.
  - rewrite !lookup_insert_ne by lia. apply lookup_insert_eq.
  - intros op Hop; apply elem_of_OperationalPoints in Hop;
      destruct Hop as [-> | [-> | [-> | ->]]];
      unfold feature_of; repeat case_decide; try congruence;
      rewrite ?lookup_insert_ne by lia; apply lookup_insert_eq.
  - intros op Hop; apply elem_of_OperationalPoints in Hop;
      destruct Hop as [-> | [-> | [-> | ->]]];
      unfold task_of, feature_of; repeat case_decide; try congruence;
      rewrite ?lookup_insert_ne by lia; apply lookup_insert_eq.
  - intros l Hl. destruct (objs h !! l) as [o|] eqn:E; [|reflexivity].
    apply (bounded_lookup _ _ _ Hb) in E. lia.
  - intros l o. cbn [next objs]. rewrite !lookup_insert.
    repeat case_decide; subst; try lia.
    intros Hl. apply (bounded_lookup _ _ _ Hb1) in Hl. lia.
  - intros l Hl1 Hl2 Hl3 Hl4. rewrite !lookup_insert_ne by lia.
    apply Hframe; auto.
Qed.

Lemma initializeRobot_facts self h h' :
  bounded h -> initializeRobot self h = (h', inr tt) ->
  exists r dl d dv s nm hs dim n,
    Initialized h self h' r dl d dv s nm hs dim n.
Proof.
  intros Hb Hrun. apply (initialization_facts h self h' Hb).
  apply (initializeRobot_returns self h h' Hb Hrun).
Qed.

Lemma run_eq {A} (m : M A) (Q : A -> Heap -> Prop) (E : Prop) h h' a :
  m h = (h', inr a) -> Q a h' -> run m Q E h.
Proof. intros Hm HQ. unfold run. rewrite Hm. exact HQ. Qed.

Lemma loadModelFromKxml_run parse self n fname h h1 m d :
  parse n fname h = (h1, inr m) ->
  objs h1 !! m = Some (ODynamic d) ->
  run (loadModelFromKxml parse self n fname)
    (fun v h2 => v = Some m /\ exists d',
        objs h2 !! m = Some (ODynamic d') /\ flags d' = fixed_profile /\
        next h2 = next h1 /\
        (forall l, l <> m -> objs h2 !! l = objs h1 !! l) /\
        d' = set_properties d (dyn_properties d') /\
        (forall k, k ∉ flag_keys -> dyn_properties d' !! k = dyn_properties d !! k))
    False h.
Proof.
  intros Hparse Hm. unfold loadModelFromKxml.
  step. step. step. eapply run_eq; [exact Hparse|]. cbv beta.
  steps.
  split; [reflexivity|]. cbn [objs next]. eexists. rewrite lookup_insert_eq.
  split; [reflexivity|]. split; [|split; [reflexivity|split; [|split]]].
  - unfold flags, flag_keys, fixed_profile. cbn [map dyn_properties].
    repeat first [ rewrite lookup_insert_eq
                 | rewrite lookup_insert_ne by discriminate ].
    reflexivity.
  - intros l Hl. apply lookup_insert_ne. congruence.
  - reflexivity.
  - intros k Hk. cbn [dyn_properties]. unfold flag_keys in Hk.
    rewrite !not_elem_of_cons in Hk. destruct Hk as (?&?&?&?&?&?&_).
    rewrite !lookup_insert_ne by congruence. reflexivity.
Qed.

(** C1. For every robot name and every valid mesh descriptor (one the
    parser turns into a model handle), [loadModelFromKxml] returns that
    model handle, and its computation flags are exactly the fixed profile:
    velocity on, CoM on, CoM acceleration off, momentum off, ZMP on,
    backward dynamics off. *)
Theorem loadModelFromKxml_fixed_profile
    (Parser_parse : string -> option string -> M loc)
    (self : loc) (n : string) (fname : option string) (h h1 : Heap)
    (m : loc) (d : Dynamic) :
  Parser_parse n fname h = (h1, inr m) ->
  objs h1 !! m = Some (ODynamic d) ->
  exists h2 d',
    loadModelFromKxml Parser_parse self n fname h = (h2, inr (Some m)) /\
    objs h2 !! m = Some (ODynamic d') /\
    flags d' = fixed_profile.
Proof.
  intros Hparse Hm.
  destruct (run_total _ _ _ _ (loadModelFromKxml_run _ self _ _ _ _ _ _ Hparse Hm))
    as (h2 & v & Hrun & -> & d' & Hd' & Hflags & _); [tauto|].
  exists h2, d'. auto.
Qed.

Lemma loadModelFromKxml_fixed_profile_witness :
  exists h2 d',
    loadModelFromKxml sample_parse 2 "r2.dynamics" (Some "r2.kxml")
      unloaded_heap = (h2, inr (Some 3)) /\
    objs h2 !! 3 = Some (ODynamic d') /\
    flags d' = fixed_profile.
Proof.
  apply (loadModelFromKxml_fixed_profile sample_parse 2 "r2.dynamics"
           (Some "r2.kxml") unloaded_heap
           {| next := 4;
              objs := <[3 := ODynamic (sample_model "r2.dynamics" 3)]>
                        (objs unloaded_heap) |}
           3 (sample_model "r2.dynamics" 3)).
  - reflexivity.
  - vm_compute. reflexivity.
Defined.

(** C6 (what the code does). Whatever the collaborators behind
    [DynamicHrp2], [setFiles] and [parse] do, [loadModelFromJrlDynamics]
    raises [NameError] on the unbound name [DynamicHrp2] and leaves the
    store as it was: no model handle is ever returned. *)
Theorem loadModelFromJrlDynamics_returns_no_model
    (DynamicHrp2 : string -> M loc)
    (setFiles : loc -> string -> string -> string -> string -> M unit)
    (parse : loc -> M unit)
    (self : loc) (n modelDir modelName specificitiesPath jointRankPath : string)
    (h : Heap) :
  loadModelFromJrlDynamics DynamicHrp2 setFiles parse self n modelDir
    modelName specificitiesPath jointRankPath h
  = (h, inl (NameError "DynamicHrp2")).
Proof. reflexivity. Qed.

Lemma initializeRobot_unloaded self h r :
  objs h !! self = Some (ORobot r) ->
  truth (dynamic r) h = (h, inr false) ->
  initializeRobot self h = (h, inl (NameError "RunTimeError")).
Proof.
  intros Hself Ht.
  unfold initializeRobot, check_model, self_get, get_robot, mbind, M_bind, bind,
    load.
  rewrite Hself. unfold ret at 1 2. rewrite Ht. reflexivity.
Qed.

(** C2 (as the code has it). When [initializeRobot] is invoked on a robot
    whose [dynamic] attribute is unset or false, the call raises at the
    guard and no initialization step is performed: the store is
    unchanged. *)
Theorem initializeRobot_requires_model (self : loc) (h : Heap) (r : Robot) :
  objs h !! self = Some (ORobot r) ->
  truth (dynamic r) h = (h, inr false) ->
  exists e, initializeRobot self h = (h, inl e).
Proof.
  intros Hself Ht. eexists. apply (initializeRobot_unloaded self h r Hself Ht).
Qed.

Lemma initializeRobot_requires_model_witness :
  exists e, initializeRobot 2 unloaded_heap = (unloaded_heap, inl e).
Proof.
  apply (initializeRobot_requires_model 2 unloaded_heap
           (with_name (Some "r2") blank)).
  - vm_compute. reflexivity.
  - reflexivity.
Defined.

(** C2 as stated fails: on a robot without a model the exception raised
    is not a [PreconditionError], and no exception of any class carries
    the message "models must be initialized first". *)
Lemma initializeRobot_precondition_error_counterexample :
  initializeRobot 2 unloaded_heap <> (unloaded_heap, inl precondition_error) /\
  ~ exists cls,
      (initializeRobot 2 unloaded_heap).2 =
      inl (Exception cls "models must be initialized first").
Proof.
  rewrite (initializeRobot_unloaded 2 unloaded_heap (with_name (Some "r2") blank))
    by (vm_compute; reflexivity).
  split.
  - intros [=].
  - intros (cls & [=]).
Qed.

(* ---- theorems ---- *)

Lemma bounded_ready_heap : bounded ready_heap.
Proof. unfold bounded. apply (bool_decide_unpack _). vm_compute. exact I. Qed.

Lemma createOpPoints_log (m : loc) (ops : list string) :
  forall h d, objs h !! m = Some (ODynamic d) ->
  for_each ops
    (fun op => m' ← deref (Some m) "createOpPoint"; createOpPoint m' op op) h
  = ({| next := next h;
        objs := <[m := ODynamic
                    (set_signals d
                       (dyn_opPoints d ++ map (fun op => (op, op)) ops)
                       (foldl (fun s op => <["J" +:+ op := None]>
                                             (<[op := None]> s))
                          (dyn_signals d) ops))]> (objs h) |}, inr tt).
Proof.
  induction ops as [|op ops IH]; intros h d Hm.
  - cbn [for_each map foldl]. rewrite app_nil_r.
    replace (set_signals d (dyn_opPoints d) (dyn_signals d)) with d
      by (destruct d; reflexivity).
    rewrite insert_id by exact Hm. destruct h; reflexivity.
  - cbn [for_each map foldl].
    unfold mbind at 1, M_bind, bind.
    unfold mbind at 1, M_bind, bind, deref, ret.
    unfold createOpPoint at 1, as_dynamic, mbind, M_bind, bind, load.
    rewrite Hm. unfold ret, store.
    set (d1 := set_signals d _ _).
    set (h1 := {| next := next h; objs := <[m := ODynamic d1]> (objs h) |}).
    specialize (IH h1 d1 (lookup_insert_eq _ _ _)).
    unfold mbind, M_bind, bind, deref, ret in IH. rewrite IH.
    subst h1 d1. cbn [next objs dyn_opPoints dyn_signals set_signals].
    rewrite insert_insert_eq, <- app_assoc. reflexivity.
Qed.

(** C9. [initializeOpPoints] ignores its [prefix] parameter: for any two
    prefixes the calls are the same computation, and on a model handle
    both perform exactly [createOpPoint(op, op)] for the four operational
    points, in order. *)
Theorem initializeOpPoints_ignores_prefix
    (self : loc) (model : option loc) (p1 p2 : string) (h : Heap) :
  initializeOpPoints self model p1 h = initializeOpPoints self model p2 h /\
  forall m d, model = Some m -> objs h !! m = Some (ODynamic d) ->
    exists h' d',
      initializeOpPoints self model p1 h = (h', inr tt) /\
      initializeOpPoints self model p2 h = (h', inr tt) /\
      objs h' !! m = Some (ODynamic d') /\
      dyn_opPoints d' =
        (dyn_opPoints d ++
         [("left-wrist", "left-wrist"); ("right-wrist", "right-wrist");
          ("left-ankle", "left-ankle"); ("right-ankle", "right-ankle")])%list.
Proof.
  split; [reflexivity|].
  intros m d -> Hm. unfold initializeOpPoints.
  rewrite (createOpPoints_log m OperationalPoints h d Hm).
  eexists _, _. split; [reflexivity|]. split; [reflexivity|].
  cbn [objs]. rewrite lookup_insert_eq. split; reflexivity.
Qed.

Lemma initializeOpPoints_ignores_prefix_witness :
  initializeOpPoints 2 (Some 3) "r2.dynamics" ready_heap
  = initializeOpPoints 2 (Some 3) "" ready_heap /\
  exists h' d',
    initializeOpPoints 2 (Some 3) "r2.dynamics" ready_heap = (h', inr tt) /\
    initializeOpPoints 2 (Some 3) "" ready_heap = (h', inr tt) /\
    objs h' !! 3 = Some (ODynamic d') /\
    dyn_opPoints d' =
      (dyn_opPoints (sample_model "r2.dynamics" 3) ++
       [("left-wrist", "left-wrist"); ("right-wrist", "right-wrist");
        ("left-ankle", "left-ankle"); ("right-ankle", "right-ankle")])%list.
Proof.
  destruct (initializeOpPoints_ignores_prefix 2 (Some 3) "r2.dynamics" ""
              ready_heap) as [Heq Hlog].
  split; [exact Heq|].
  apply (Hlog 3 (sample_model "r2.dynamics" 3)).
  - reflexivity.
  - vm_compute. reflexivity.
Defined.

Ltac facts F :=
  destruct F as [Hself Hnm Hhs Hdim Hdyn Hmodel Hdev Hnext Hrobot' Hmodel'
                 Hdevice' HfCom HfDes HcTask Hfeats Htasks Hfeat Htask Hfresh
                 Hbnd Hframe].

Lemma zeros_all_zero dim : Forall (fun x => x = 0%float) (zeros dim).
Proof.
  unfold zeros. induction (Z.to_nat dim) as [|k IH]; cbn [repeat].
  - constructor.
  - constructor; [reflexivity | exact IH].
Qed.

Lemma zeros_length dim : (0 <= dim)%Z -> Z.of_nat (length (zeros dim)) = dim.
Proof. intros Hd. unfold zeros. rewrite repeat_length. lia. Qed.

Lemma initialized_ran self :
  initializeRobot self ready_heap
  = ((initializeRobot self ready_heap).1, (initializeRobot self ready_heap).2).
Proof. destruct (initializeRobot self ready_heap). reflexivity. Qed.

(** C3 (as the code has it). After [initializeRobot] returns, the position
    vector of the model is [halfSitting], and its velocity and
    acceleration vectors are all-zero vectors of [dimension] entries
    (none when [dimension] is negative); when [len(halfSitting)] equals
    [dimension], the five lengths of the claim are that same number. *)
Theorem initializeRobot_state_vectors (self : loc) (h h' : Heap) :
  bounded h -> initializeRobot self h = (h', inr tt) ->
  exists r' dl d' hs dim,
    objs h' !! self = Some (ORobot r') /\
    halfSitting r' = Some hs /\ dimension r' = Some dim /\
    dynamic r' = Some dl /\ objs h' !! dl = Some (ODynamic d') /\
    dyn_position d' = Constant (Vector hs) /\
    dyn_velocity d' = Constant (Vector (zeros dim)) /\
    dyn_acceleration d' = Constant (Vector (zeros dim)) /\
    Forall (fun x => x = 0%float) (zeros dim) /\
    length (zeros dim) = Z.to_nat dim /\
    (Z.of_nat (length hs) = dim ->
     lengths h' self = Some [dim; dim; dim; dim; dim]).
Proof.
  intros Hb Hrun.
  destruct (initializeRobot_facts self h h' Hb Hrun)
    as (r & dl & d & dv & s & nm & hs & dim & n & F).
  facts F.
  eexists _, dl, _, hs, dim. split; [eassumption|].
  cbn [initialized_robot with_device halfSitting dimension dynamic].
  repeat (split; [first [eassumption | reflexivity]|]).
  split; [apply zeros_all_zero|]. split; [apply repeat_length|].
  intros Hlen. unfold lengths. rewrite Hrobot'.
  cbn [initialized_robot with_device halfSitting dimension dynamic].
  rewrite Hhs, Hdim, Hdyn. cbn [mbind option_bind].
  rewrite Hmodel'. cbn [initialized_model dyn_position dyn_velocity
    dyn_acceleration vector_length mbind option_bind].
  assert (0 <= dim)%Z by lia. rewrite zeros_length by assumption.
  rewrite Hlen. reflexivity.
Qed.

Lemma initializeRobot_state_vectors_witness :
  exists r' dl d' hs dim,
    objs (initializeRobot 2 ready_heap).1 !! 2 = Some (ORobot r') /\
    halfSitting r' = Some hs /\ dimension r' = Some dim /\
    dynamic r' = Some dl /\
    objs (initializeRobot 2 ready_heap).1 !! dl = Some (ODynamic d') /\
    dyn_position d' = Constant (Vector hs) /\
    dyn_velocity d' = Constant (Vector (zeros dim)) /\
    dyn_acceleration d' = Constant (Vector (zeros dim)) /\
    Forall (fun x => x = 0%float) (zeros dim) /\
    length (zeros dim) = Z.to_nat dim /\
    (Z.of_nat (length hs) = dim ->
     lengths (initializeRobot 2 ready_heap).1 2 = Some [dim; dim; dim; dim; dim]).
Proof.
  apply (initializeRobot_state_vectors 2 ready_heap
           (initializeRobot 2 ready_heap).1).
  - unfold bounded. apply (bool_decide_unpack _). vm_compute. exact I.
  - vm_compute. reflexivity.
Defined.

(** C3 as stated fails: a robot whose [halfSitting] has one entry and
    whose [dimension] is two is initialized without complaint, and the
    five lengths are then 1, 2, 1, 2, 2. *)
Lemma initializeRobot_lengths_counterexample :
  (initializeRobot 2 mismatched_heap).2 = inr tt /\
  lengths (initializeRobot 2 mismatched_heap).1 2 = Some [1; 2; 1; 2; 2]%Z.
Proof. vm_compute. split; reflexivity. Qed.

(** C4. After [initializeRobot] returns, the control gain of the CoM task
    is 1.0, and the selection mask of the CoM feature has three entries of
    which exactly one, the first, is switched off. *)
Theorem initializeRobot_com_task (self : loc) (h h' : Heap) :
  bounded h -> initializeRobot self h = (h', inr tt) ->
  exists r' t T f F mask,
    objs h' !! self = Some (ORobot r') /\
    comTask r' = Some t /\ objs h' !! t = Some (OTask T) /\
    task_controlGain T = Some 1%float /\
    featureCom r' = Some f /\ objs h' !! f = Some (OFeatureGeneric F) /\
    fg_selec F = Some mask /\
    String.length mask = 3 /\ excluded mask = [0].
Proof.
  intros Hb Hrun.
  destruct (initializeRobot_facts self h h' Hb Hrun)
    as (r & dl & d & dv & s & nm & hs & dim & n & F).
  facts F.
  eexists _, _, _, _, _, _. split; [exact Hrobot'|].
  cbn [initialized_robot comTask featureCom].
  split; [reflexivity|]. split; [exact HcTask|]. split; [reflexivity|].
  split; [reflexivity|]. split; [exact HfCom|]. split; [reflexivity|].
  split; reflexivity.
Qed.

Lemma initializeRobot_com_task_witness :
  exists r' t T f F mask,
    objs (initializeRobot 2 ready_heap).1 !! 2 = Some (ORobot r') /\
    comTask r' = Some t /\
    objs (initializeRobot 2 ready_heap).1 !! t = Some (OTask T) /\
    task_controlGain T = Some 1%float /\
    featureCom r' = Some f /\
    objs (initializeRobot 2 ready_heap).1 !! f = Some (OFeatureGeneric F) /\
    fg_selec F = Some mask /\
    String.length mask = 3 /\ excluded mask = [0].
Proof.
  apply (initializeRobot_com_task 2 ready_heap (initializeRobot 2 ready_heap).1).
  - unfold bounded. apply (bool_decide_unpack _). vm_compute. exact I.
  - vm_compute. reflexivity.
Defined.

(* ---- theorems ---- *)

Ltac op_cases Hop :=
  apply elem_of_OperationalPoints in Hop;
  destruct Hop as [-> | [-> | [-> | ->]]].

Lemma features_dict_lookup n op :
  op ∈ OperationalPoints ->
  foldl (fun m op => <[op := feature_of n op]> m) (∅ : gmap string loc)
    OperationalPoints !! op = Some (feature_of n op).
Proof.
  intros Hop. op_cases Hop; cbn [foldl OperationalPoints];
    repeat first [ rewrite lookup_insert_eq
                 | rewrite lookup_insert_ne by discriminate ]; reflexivity.
Qed.

Lemma tasks_dict_lookup n op :
  op ∈ OperationalPoints ->
  foldl (fun m op => <[op := task_of n op]> m) (∅ : gmap string loc)
    OperationalPoints !! op = Some (task_of n op).
Proof.
  intros Hop. op_cases Hop; cbn [foldl OperationalPoints];
    repeat first [ rewrite lookup_insert_eq
                 | rewrite lookup_insert_ne by discriminate ]; reflexivity.
Qed.

Lemma memberName_OperationalPoints :
  map memberName OperationalPoints
  = ["leftWrist"; "rightWrist"; "leftAnkle"; "rightAnkle"].
Proof. reflexivity. Qed.

Lemma members_lookup (ms : gmap string loc) n op :
  op ∈ OperationalPoints ->
  foldl (fun m op => <[memberName op := feature_of n op]> m) ms
    OperationalPoints !! memberName op = Some (feature_of n op).
Proof.
  intros Hop.
  op_cases Hop; cbn [foldl OperationalPoints];
    change (memberName "left-wrist") with "leftWrist";
    change (memberName "right-wrist") with "rightWrist";
    change (memberName "left-ankle") with "leftAnkle";
    change (memberName "right-ankle") with "rightAnkle";
    repeat first [ rewrite lookup_insert_eq
                 | rewrite lookup_insert_ne by discriminate ]; reflexivity.
Qed.

(** C5. After [initializeRobot] returns, for every operational point
    [features[op]] and [tasks[op]] exist, the task's control gain is 0.2
    (the double nearest to two tenths), and the attribute whose name joins
    the hyphen-separated words of [op] in camel case is bound to the very
    object [features[op]]; that name is none of the declared attributes.
    For instance "left-wrist" gives [leftWrist] and "right-ankle" gives
    [rightAnkle]. *)
Theorem initializeRobot_operational_points
    (self : loc) (h h' : Heap) (op : string) :
  bounded h -> initializeRobot self h = (h', inr tt) ->
  op ∈ OperationalPoints ->
  exists r' fs fd f F ts td t T,
    objs h' !! self = Some (ORobot r') /\
    features r' = Some fs /\ objs h' !! fs = Some (ODict fd) /\
    fd !! op = Some f /\ objs h' !! f = Some (OFeaturePosition F) /\
    tasks r' = Some ts /\ objs h' !! ts = Some (ODict td) /\
    td !! op = Some t /\ objs h' !! t = Some (OTask T) /\
    task_controlGain T = Some gain_op /\ gain_op = (2 / 10)%float /\
    members r' !! memberName op = Some f /\
    (memberName op ∉ declared_attributes) /\
    memberName "left-wrist" = "leftWrist" /\
    memberName "right-ankle" = "rightAnkle".
Proof.
  intros Hb Hrun Hop.
  destruct (initializeRobot_facts self h h' Hb Hrun)
    as (r & dl & d & dv & s & nm & hs & dim & n & F).
  facts F.
  eexists _, _, _, (feature_of n op), _, _, _, (task_of n op), _.
  split; [exact Hrobot'|]. cbn [initialized_robot features tasks members].
  split; [reflexivity|]. split; [exact Hfeats|].
  split; [apply features_dict_lookup; exact Hop|].
  split; [apply Hfeat; exact Hop|].
  split; [reflexivity|]. split; [exact Htasks|].
  split; [apply tasks_dict_lookup; exact Hop|].
  split; [apply Htask; exact Hop|].
  split; [reflexivity|]. split; [reflexivity|].
  split; [apply members_lookup; exact Hop|].
  split; [|split; reflexivity].
  op_cases Hop; apply (bool_decide_unpack _); vm_compute; exact I.
Qed.

Lemma initializeRobot_operational_points_witness :
  exists r' fs fd f F ts td t T,
    objs (initializeRobot 2 ready_heap).1 !! 2 = Some (ORobot r') /\
    features r' = Some fs /\
    objs (initializeRobot 2 ready_heap).1 !! fs = Some (ODict fd) /\
    fd !! "right-ankle" = Some f /\
    objs (initializeRobot 2 ready_heap).1 !! f = Some (OFeaturePosition F) /\
    tasks r' = Some ts /\
    objs (initializeRobot 2 ready_heap).1 !! ts = Some (ODict td) /\
    td !! "right-ankle" = Some t /\
    objs (initializeRobot 2 ready_heap).1 !! t = Some (OTask T) /\
    task_controlGain T = Some gain_op /\ gain_op = (2 / 10)%float /\
    members r' !! memberName "right-ankle" = Some f /\
    (memberName "right-ankle" ∉ declared_attributes) /\
    memberName "left-wrist" = "leftWrist" /\
    memberName "right-ankle" = "rightAnkle".
Proof.
  apply (initializeRobot_operational_points 2 ready_heap
           (initializeRobot 2 ready_heap).1 "right-ankle").
  - unfold bounded. apply (bool_decide_unpack _). vm_compute. exact I.
  - vm_compute. reflexivity.
  - apply (bool_decide_unpack _). vm_compute. exact I.
Defined.

Lemma initialized_signal d hs dim n :
  n ∈ "com" :: "Jcom" ::
      flat_map (fun op => [op; "J" +:+ op]) OperationalPoints ->
  dyn_signals (initialized_model d hs dim) !! n
  = Some (Some (eval_at d hs dim n)).
Proof.
  intros Hn.
  cbv beta iota zeta delta
    [flat_map OperationalPoints app String.append] in Hn.
  rewrite !elem_of_cons, elem_of_nil in Hn.
  cbv beta iota zeta delta
    [initialized_model recomputed created_signals foldl flat_map
     OperationalPoints app String.append dyn_signals].
  destruct Hn as [->|[->|[->|[->|[->|[->|[->|[->|[->|[->|[]]]]]]]]]]];
    repeat first [ rewrite lookup_insert_eq
                 | rewrite lookup_insert_ne by discriminate ]; reflexivity.
Qed.

(** C7. After [initializeRobot] returns, the error input of the desired
    CoM feature is a constant, equal to the value the CoM signal holds at
    that time (so it reads the same in every later store, where the CoM
    signal may have moved on); and for every operational point the
    reference of its feature is a constant equal to the value of the
    point's position signal at that time. *)
Theorem initializeRobot_snapshots (self : loc) (h h' : Heap) :
  bounded h -> initializeRobot self h = (h', inr tt) ->
  exists r' dl des D v,
    objs h' !! self = Some (ORobot r') /\ dynamic r' = Some dl /\
    featureComDes r' = Some des /\
    objs h' !! des = Some (OFeatureGeneric D) /\
    fg_errorIN D = Constant v /\
    read h' (Plugged dl "com") = Some v /\
    (forall h'', read h'' (fg_errorIN D) = Some v) /\
    forall op, op ∈ OperationalPoints ->
      exists fs fd f F vo,
        features r' = Some fs /\ objs h' !! fs = Some (ODict fd) /\
        fd !! op = Some f /\ objs h' !! f = Some (OFeaturePosition F) /\
        fp_position F = Plugged dl op /\
        fp_reference F = Constant vo /\
        read h' (fp_position F) = Some vo.
Proof.
  intros Hb Hrun.
  destruct (initializeRobot_facts self h h' Hb Hrun)
    as (r & dl & d & dv & s & nm & hs & dim & n & F).
  facts F.
  eexists _, dl, _, _, _. split; [exact Hrobot'|].
  cbn [initialized_robot with_device dynamic featureComDes features].
  split; [exact Hdyn|]. split; [reflexivity|]. split; [exact HfDes|].
  split; [reflexivity|]. split; [|split].
  - unfold read. rewrite Hmodel'.
    rewrite (initialized_signal d hs dim "com"); [reflexivity|].
    apply (bool_decide_unpack _). vm_compute. exact I.
  - intros h''. reflexivity.
  - intros op Hop.
    eexists _, _, (feature_of n op), _, _.
    split; [reflexivity|]. split; [exact Hfeats|].
    split; [apply features_dict_lookup; exact Hop|].
    split; [apply Hfeat; exact Hop|].
    split; [reflexivity|]. split; [reflexivity|].
    cbn [fp_position]. unfold read. rewrite Hmodel'.
    rewrite (initialized_signal d hs dim op); [reflexivity|].
    op_cases Hop; apply (bool_decide_unpack _); vm_compute; exact I.
Qed.

Lemma initializeRobot_snapshots_witness :
  exists r' dl des D v,
    objs (initializeRobot 2 ready_heap).1 !! 2 = Some (ORobot r') /\
    dynamic r' = Some dl /\
    featureComDes r' = Some des /\
    objs (initializeRobot 2 ready_heap).1 !! des = Some (OFeatureGeneric D) /\
    fg_errorIN D = Constant v /\
    read (initializeRobot 2 ready_heap).1 (Plugged dl "com") = Some v /\
    (forall h'', read h'' (fg_errorIN D) = Some v) /\
    forall op, op ∈ OperationalPoints ->
      exists fs fd f F vo,
        features r' = Some fs /\
        objs (initializeRobot 2 ready_heap).1 !! fs = Some (ODict fd) /\
        fd !! op = Some f /\
        objs (initializeRobot 2 ready_heap).1 !! f
        = Some (OFeaturePosition F) /\
        fp_position F = Plugged dl op /\
        fp_reference F = Constant vo /\
        read (initializeRobot 2 ready_heap).1 (fp_position F) = Some vo.
Proof.
  apply (initializeRobot_snapshots 2 ready_heap (initializeRobot 2 ready_heap).1).
  - unfold bounded. apply (bool_decide_unpack _). vm_compute. exact I.
  - vm_compute. reflexivity.
Defined.

(** C8. [initializeRobot] builds a device only when the robot has none:
    a robot that holds a device keeps that very object in its [device]
    attribute (the object keeps its name, and no device is allocated),
    whereas a robot whose [device] is unset or false gets a new
    [RobotSimu] named after the robot, at an identity that was free. *)
Theorem initializeRobot_device (self : loc) (h h' : Heap) :
  bounded h -> initializeRobot self h = (h', inr tt) ->
  exists r r' nm,
    objs h !! self = Some (ORobot r) /\ name r = Some nm /\
    objs h' !! self = Some (ORobot r') /\
    ((exists dv s s',
        device r = Some dv /\ objs h !! dv = Some (ORobotSimu s) /\
        device r' = device r /\
        objs h' !! dv = Some (ORobotSimu s') /\ dev_name s' = dev_name s /\
        next h' = 13 + next h)
     \/
     (exists s',
        truth (device r) h = (h, inr false) /\
        device r' = Some (next h) /\ objs h !! next h = None /\
        objs h' !! next h = Some (ORobotSimu s') /\
        dev_name s' = nm +:+ ".device" /\
        next h' = 14 + next h)).
Proof.
  intros Hb Hrun.
  destruct (initializeRobot_facts self h h' Hb Hrun)
    as (r & dl & d & dv & s & nm & hs & dim & n & F).
  facts F.
  exists r, (initialized_robot (with_device (Some dv) r) n), nm.
  split; [exact Hself|]. split; [exact Hnm|]. split; [exact Hrobot'|].
  destruct Hdev as [(Hd & Hdv & ->) | (Ht & -> & -> & ->)].
  - left. exists dv, s, {| dev_name := dev_name s; dev_state := Some hs |}.
    cbn [initialized_robot with_device device].
    repeat (split; [first [assumption | reflexivity | congruence]|]).
    exact Hnext.
  - right. eexists.
    cbn [initialized_robot with_device device].
    split; [exact Ht|]. split; [reflexivity|].
    split.
    { destruct (objs h !! next h) as [o|] eqn:E; [|reflexivity].
      apply (bounded_lookup _ _ _ Hb) in E. lia. }
    split; [exact Hdevice'|].
    split; [reflexivity|]. exact Hnext.
Qed.

Lemma initializeRobot_device_witness :
  exists r r' nm,
    objs ready_heap !! 2 = Some (ORobot r) /\ name r = Some nm /\
    objs (initializeRobot 2 ready_heap).1 !! 2 = Some (ORobot r') /\
    ((exists dv s s',
        device r = Some dv /\ objs ready_heap !! dv = Some (ORobotSimu s) /\
        device r' = device r /\
        objs (initializeRobot 2 ready_heap).1 !! dv = Some (ORobotSimu s') /\
        dev_name s' = dev_name s /\
        next (initializeRobot 2 ready_heap).1 = 13 + next ready_heap)
     \/
     (exists s',
        truth (device r) ready_heap = (ready_heap, inr false) /\
        device r' = Some (next ready_heap) /\
        objs ready_heap !! next ready_heap = None /\
        objs (initializeRobot 2 ready_heap).1 !! next ready_heap
        = Some (ORobotSimu s') /\
        dev_name s' = nm +:+ ".device" /\
        next (initializeRobot 2 ready_heap).1 = 14 + next ready_heap)).
Proof.
  apply (initializeRobot_device 2 ready_heap (initializeRobot 2 ready_heap).1).
  - unfold bounded. apply (bool_decide_unpack _). vm_compute. exact I.
  - vm_compute. reflexivity.
Defined.

(* ---- theorems ---- *)

Lemma AbstractHumanoidRobot_new_eq n h :
  AbstractHumanoidRobot_new n h
  = ({| next := S (next h);
        objs := <[next h := ORobot (with_name (Some n) blank)]> (objs h) |},
     inr (next h)).
Proof.
  unfold AbstractHumanoidRobot_new, new_instance, AbstractHumanoidRobot_init,
    self_set, get_robot, mbind, M_bind, bind, alloc, load, store, ret.
  cbn [objs next]. rewrite lookup_insert_eq. cbn [objs next].
  rewrite insert_insert_eq. reflexivity.
Qed.

Lemma operational_keys (f : string -> loc) :
  dom (foldl (fun m op => <[op := f op]> m) (∅ : gmap string loc)
         OperationalPoints)
  = list_to_set OperationalPoints.
Proof.
  cbn [foldl OperationalPoints list_to_set].
  rewrite !dom_insert_L, dom_empty_L. set_solver.
Qed.

(** C10. Two instances just built by [AbstractHumanoidRobot(name)] read
    [features] and [tasks] from the same two dictionaries, those of the
    class.  Once [initializeRobot] has returned for two robots, each
    holds dictionaries of its own, created by that call, whose keys are
    exactly the operational points: the two class dictionaries and the
    four instance dictionaries are six different objects. *)
Theorem features_and_tasks_mappings :
  (forall h h1 h2 n1 n2 s1 s2,
      AbstractHumanoidRobot_new n1 h = (h1, inr s1) ->
      AbstractHumanoidRobot_new n2 h1 = (h2, inr s2) ->
      exists r1 r2,
        s1 <> s2 /\
        objs h2 !! s1 = Some (ORobot r1) /\
        objs h2 !! s2 = Some (ORobot r2) /\
        self_features r1 = AbstractHumanoidRobot_features /\
        self_features r2 = AbstractHumanoidRobot_features /\
        self_tasks r1 = AbstractHumanoidRobot_tasks /\
        self_tasks r2 = AbstractHumanoidRobot_tasks) /\
  (forall h h1 h2 s1 s2,
      heap_wf h -> s1 <> s2 ->
      initializeRobot s1 h = (h1, inr tt) ->
      initializeRobot s2 h1 = (h2, inr tt) ->
      exists r1 r2 f1 t1 f2 t2 fd1 td1 fd2 td2,
        objs h2 !! s1 = Some (ORobot r1) /\
        objs h2 !! s2 = Some (ORobot r2) /\
        features r1 = Some f1 /\ tasks r1 = Some t1 /\
        features r2 = Some f2 /\ tasks r2 = Some t2 /\
        objs h2 !! f1 = Some (ODict fd1) /\
        objs h2 !! t1 = Some (ODict td1) /\
        objs h2 !! f2 = Some (ODict fd2) /\
        objs h2 !! t2 = Some (ODict td2) /\
        dom fd1 = list_to_set OperationalPoints /\
        dom td1 = list_to_set OperationalPoints /\
        dom fd2 = list_to_set OperationalPoints /\
        dom td2 = list_to_set OperationalPoints /\
        objs h !! f1 = None /\ objs h !! t1 = None /\
        objs h1 !! f2 = None /\ objs h1 !! t2 = None /\
        NoDup [AbstractHumanoidRobot_features; AbstractHumanoidRobot_tasks;
               f1; t1; f2; t2]).
Proof.
  split.
  - intros h h1 h2 n1 n2 s1 s2 H1 H2.
    rewrite AbstractHumanoidRobot_new_eq in H1, H2.
    injection H1 as <- <-. injection H2 as <- <-. cbn [next objs].
    exists (with_name (Some n1) blank), (with_name (Some n2) blank).
    split; [lia|]. split; [|split; [apply lookup_insert_eq|]].
    + rewrite lookup_insert_ne by lia. apply lookup_insert_eq.
    + repeat split.
  - intros h h1 h2 s1 s2 [Hb (cf & ct & Hcf & Hct)] Hne Hrun1 Hrun2.
    destruct (initializeRobot_facts s1 h h1 Hb Hrun1)
      as (r1 & dl1 & d1 & dv1 & v1 & nm1 & hs1 & dim1 & n1 & F1).
    assert (Hb1 : bounded h1) by (destruct F1; assumption).
    destruct (initializeRobot_facts s2 h1 h2 Hb1 Hrun2)
      as (r2 & dl2 & d2 & dv2 & v2 & nm2 & hs2 & dim2 & n2 & F2).
    destruct F1 as [Hself1 _ _ _ _ Hmod1 Hdev1 Hnext1 Hrobot1 _ _ _ _ _
                    Hfeats1 Htasks1 _ _ Hfresh1 _ _].
    destruct F2 as [Hself2 _ _ _ _ Hmod2 Hdev2 Hnext2 Hrobot2 _ _ _ _ _
                    Hfeats2 Htasks2 _ _ Hfresh2 _ Hframe2].
    pose proof (bounded_lookup _ _ _ Hb Hcf) as Bcf.
    pose proof (bounded_lookup _ _ _ Hb Hct) as Bct.
    pose proof (bounded_lookup _ _ _ Hb1 Hrobot1) as Bs1.
    assert (Hn1 : next h <= n1) by (destruct Hdev1 as [(_&_&->)|(_&_&->&_)]; lia).
    assert (Hn2 : next h1 <= n2) by (destruct Hdev2 as [(_&_&->)|(_&_&->&_)]; lia).
    assert (Hother : forall l o, objs h1 !! l = Some o ->
              (forall r, o <> ORobot r) -> (forall d, o <> ODynamic d) ->
              (forall s, o <> ORobotSimu s) -> objs h2 !! l = Some o).
    { intros l o Hl Hr Hd Hs. rewrite <- Hl.
      pose proof (bounded_lookup _ _ _ Hb1 Hl).
      apply Hframe2; [assumption | | |].
      - intros ->. rewrite Hself2 in Hl. injection Hl as <-. eapply Hr; reflexivity.
      - intros ->. rewrite Hmod2 in Hl. injection Hl as <-. eapply Hd; reflexivity.
      - intros ->. destruct Hdev2 as [(_ & Hv & _)|(_ & -> & _)]; [|lia].
        rewrite Hv in Hl. injection Hl as <-. eapply Hs; reflexivity. }
    eexists _, _, (3 + n1), (4 + n1), (3 + n2), (4 + n2), _, _, _, _.
    split.
    { rewrite <- Hrobot1. apply Hframe2; [assumption | congruence | |].
      - intros ->. congruence.
      - intros ->. destruct Hdev2 as [(_ & Hv & _)|(_ & -> & _)]; [congruence|lia]. }
    split; [exact Hrobot2|].
    cbn [initialized_robot features tasks].
    do 4 (split; [reflexivity|]).
    split; [apply Hother; [exact Hfeats1|discriminate..]|].
    split; [apply Hother; [exact Htasks1|discriminate..]|].
    split; [exact Hfeats2|]. split; [exact Htasks2|].
    do 4 (split; [apply operational_keys|]).
    split; [apply Hfresh1; lia|]. split; [apply Hfresh1; lia|].
    split; [apply Hfresh2; lia|]. split; [apply Hfresh2; lia|].
    unfold AbstractHumanoidRobot_features, AbstractHumanoidRobot_tasks in *.
    repeat (apply NoDup_cons; split;
            [rewrite ?not_elem_of_cons; repeat split;
               first [lia | apply not_elem_of_nil]|]).
    apply NoDup_nil. exact I.
Qed.

Lemma features_and_tasks_mappings_witness :
  (exists r1 r2,
      next module_heap <> S (next module_heap) /\
      objs (AbstractHumanoidRobot_new "r3"
              (AbstractHumanoidRobot_new "r2" module_heap).1).1 !! 2
      = Some (ORobot r1) /\
      objs (AbstractHumanoidRobot_new "r3"
              (AbstractHumanoidRobot_new "r2" module_heap).1).1 !! 3
      = Some (ORobot r2) /\
      self_features r1 = AbstractHumanoidRobot_features /\
      self_features r2 = AbstractHumanoidRobot_features /\
      self_tasks r1 = AbstractHumanoidRobot_tasks /\
      self_tasks r2 = AbstractHumanoidRobot_tasks) /\
  (exists r1 r2 f1 t1 f2 t2 fd1 td1 fd2 td2,
      objs (initializeRobot 4 (initializeRobot 2 two_robots_heap).1).1 !! 2
      = Some (ORobot r1) /\
      objs (initializeRobot 4 (initializeRobot 2 two_robots_heap).1).1 !! 4
      = Some (ORobot r2) /\
      features r1 = Some f1 /\ tasks r1 = Some t1 /\
      features r2 = Some f2 /\ tasks r2 = Some t2 /\
      objs (initializeRobot 4 (initializeRobot 2 two_robots_heap).1).1 !! f1
      = Some (ODict fd1) /\
      objs (initializeRobot 4 (initializeRobot 2 two_robots_heap).1).1 !! t1
      = Some (ODict td1) /\
      objs (initializeRobot 4 (initializeRobot 2 two_robots_heap).1).1 !! f2
      = Some (ODict fd2) /\
      objs (initializeRobot 4 (initializeRobot 2 two_robots_heap).1).1 !! t2
      = Some (ODict td2) /\
      dom fd1 = list_to_set OperationalPoints /\
      dom td1 = list_to_set OperationalPoints /\
      dom fd2 = list_to_set OperationalPoints /\
      dom td2 = list_to_set OperationalPoints /\
      objs two_robots_heap !! f1 = None /\
      objs two_robots_heap !! t1 = None /\
      objs (initializeRobot 2 two_robots_heap).1 !! f2 = None /\
      objs (initializeRobot 2 two_robots_heap).1 !! t2 = None /\
      NoDup [AbstractHumanoidRobot_features; AbstractHumanoidRobot_tasks;
             f1; t1; f2; t2]).
Proof.
  destruct features_and_tasks_mappings as [Hclass Hinstance]. split.
  - apply (Hclass module_heap (AbstractHumanoidRobot_new "r2" module_heap).1
             (AbstractHumanoidRobot_new "r3"
                (AbstractHumanoidRobot_new "r2" module_heap).1).1
             "r2" "r3" 2 3).
    + vm_compute. reflexivity.
    + vm_compute. reflexivity.
  - apply (Hinstance two_robots_heap (initializeRobot 2 two_robots_heap).1
             (initializeRobot 4 (initializeRobot 2 two_robots_heap).1).1 2 4).
    + split.
      * unfold bounded. apply (bool_decide_unpack _). vm_compute. exact I.
      * eexists _, _. split; vm_compute; reflexivity.
    + lia.
    + vm_compute. reflexivity.
    + vm_compute. reflexivity.
Defined.
